(** * StreamHub video catalogue: the upload / update / delete handlers

    A shallow embedding of [main.py] and [models.py].

    - Python [str] values are Rocq strings whose characters stand for the
      code points U+0000 to U+00FF.
    - The file store is a finite map from paths to contents; the [videos]
      table is the list of its committed rows.
    - A request handler is a function of the world that returns a result
      or a raised exception, the world it leaves and the trace of its
      storage effects.  What the handler cannot decide (the fresh uuid, the
      clock, whether the file write, the file removal, the commit and the
      re-read of a new row raise, and how much of a file a failing write
      leaves) is given by an environment, so a statement over all
      environments covers every failure of these steps.  A query by key
      raises when the key is outside the 64-bit range of the store. *)

From Stdlib Require Import ZArith Ascii List Bool Lia.
From Stdlib Require String.
From stdpp Require Import base option list strings gmap pretty sorting.

Local Open Scope Z_scope.

(** ** Python string primitives *)

Module Py.

(** [bool(s)] of a string: the empty string is falsy. *)
Definition truthy (s : string) : bool :=
  match s with
  | EmptyString => false
  | String _ _ => true
  end.

(** [c.isspace()] on the Latin-1 range: TAB..CR, FS..US, SPACE, NEL, NBSP. *)
Definition isspace (c : ascii) : bool :=
  let n := N_of_ascii c in
  ((9 <=? n) && (n <=? 13) || (28 <=? n) && (n <=? 32)
   || (n =? 133) || (n =? 160))%N.

Fixpoint lstrip (s : string) : string :=
  match s with
  | EmptyString => EmptyString
  | String c s' => if isspace c then lstrip s' else s
  end.

Fixpoint rstrip (s : string) : string :=
  match s with
  | EmptyString => EmptyString
  | String c s' =>
      match rstrip s' with
      | EmptyString => if isspace c then EmptyString else String c EmptyString
      | r => String c r
      end
  end.

(** [s.strip()] *)
Definition strip (s : string) : string := rstrip (lstrip s).

(** [s.startswith(p)], returning what follows the prefix. *)
Fixpoint strip_prefix (p s : string) : option string :=
  match p, s with
  | EmptyString, _ => Some s
  | String _ _, EmptyString => None
  | String a p', String b s' =>
      if Ascii.eqb a b then strip_prefix p' s' else None
  end.

Definition startswith (s p : string) : bool :=
  match strip_prefix p s with Some _ => true | None => false end.

(** [s.partition(sep)] at the leftmost occurrence of [sep]: the text
    before it and the text after it, [None] when [sep] does not occur. *)
Fixpoint cut (sep s : string) : option (string * string) :=
  match strip_prefix sep s with
  | Some r => Some (EmptyString, r)
  | None =>
      match s with
      | EmptyString => None
      | String c s' =>
          match cut sep s' with
          | Some (a, b) => Some (String c a, b)
          | None => None
          end
      end
  end.

(** [sub in s] *)
Definition contains (sub s : string) : bool :=
  match cut sub s with Some _ => true | None => false end.

(** [s.split(sep)] for a non-empty [sep]: occurrences are taken from left
    to right without overlap.  Each round consumes at least one character,
    so [String.length s] rounds are enough. *)
Fixpoint split_fuel (fuel : nat) (sep s : string) : list string :=
  match fuel with
  | O => [s]
  | S fuel' =>
      match cut sep s with
      | None => [s]
      | Some (a, b) => a :: split_fuel fuel' sep b
      end
  end.

Definition split (sep s : string) : list string :=
  split_fuel (String.length s) sep s.

(** [sep.join(l)] *)
Fixpoint join (sep : string) (l : list string) : string :=
  match l with
  | [] => EmptyString
  | [x] => x
  | x :: l' => x +:+ sep +:+ join sep l'
  end.

(** [s.replace(old, new)] for a non-empty [old]. *)
Definition replace (old new s : string) : string :=
  join new (split old s).

(** [l[-1]] and [l[0]]; [None] stands for the [IndexError]. *)
Definition item_last {A} (l : list A) : option A := last l.
Definition item_first {A} (l : list A) : option A := head l.

(** [s[:n]] *)
Fixpoint upto (n : nat) (s : string) : string :=
  match n, s with
  | S n', String c s' => String c (upto n' s')
  | _, _ => EmptyString
  end.

End Py.

(** ** models.py *)

Record Video := mkVideo {
  id : Z;
  title : string;
  description : option string;
  hashtags : option string;
  streamtape_url : string;
  streamtape_id : string;
  banner_path : string;
  created_at : Z;
  updated_at : Z
}.

(** [Video.hashtag_list] *)
Definition hashtag_list (v : Video) : list string :=
  match hashtags v with
  | None => []
  | Some s =>
      if negb (Py.truthy s) then []
      else List.map Py.strip
             (List.filter (fun tag => Py.truthy (Py.strip tag)) (Py.split "," s))
  end.

(** [Video.embed_url] *)
Definition embed_url (v : Video) : string :=
  "https://streamtape.com/e/" +:+ streamtape_id v +:+ "/".

(** ** main.py: utility functions *)

(** The [try] body of [extract_streamtape_id]; [None] stands for an
    exception raised by one of the indexing operations. *)
Definition extract_body (url : string) : option string :=
  if Py.contains "/e/" url then
    p ← Py.item_last (Py.split "/e/" url);
    Py.item_first (Py.split "/" p)
  else
    p ← Py.item_last (Py.split "/" url);
    Some (Py.replace "/" "" p).

(** [extract_streamtape_id], with its [except Exception] arm. *)
Definition extract_streamtape_id (url : string) : string :=
  match extract_body url with
  | Some r => r
  | None => "invalid_id"
  end.

(** ** The world the handlers run in *)

(** Exceptions: [HTTPException], and any other [Exception] with its
    [str(e)]. *)
Inductive exn :=
| HTTPException (status_code : Z) (detail : string)
| Exception (msg : string).

Inductive result (A : Type) :=
| Ok (a : A)
| Raise (e : exn).
Arguments Ok {A} a.
Arguments Raise {A} e.

(** Storage effects, in the order they happen. *)
Inductive event :=
| EvWrite (path : string)
| EvWriteFailed (path : string)
| EvRemove (path : string)
| EvRemoveFailed (path : string)
| EvCommit
| EvCommitFailed.

(** The file store (path to content) and the committed rows of the
    [videos] table. *)
Record World := mkWorld {
  files : gmap string string;
  videos : list Video
}.

(** What one request gets from outside the program: the value of
    [uuid.uuid4()]; the clock; and whether the file write, [os.remove],
    [db.commit()] and [db.refresh()] raise (with the message of the
    exception).

    The clock is read once for each column default of an INSERT: [utcnow]
    is the reading for [created_at], [utcnow_next] the one that follows for
    [updated_at]; the [onupdate] of an UPDATE reads [utcnow].

    A failing write has [write_partial]: [None] when [aiofiles.open] itself
    fails, [Some n] when the failure comes once the file is open, with the
    first [n] characters of the content written. *)
Record Env := mkEnvOf {
  uuid4 : string;
  utcnow : Z;
  utcnow_next : Z;
  write_error : option string;
  write_partial : option nat;
  remove_error : option string;
  commit_error : option string;
  refresh_error : option string
}.

(** The environments in which the clock reads the same twice, a write
    fails at [open] if it fails, and the re-read succeeds. *)
Definition mkEnv (uuid : string) (now : Z)
    (write remove commit : option string) : Env :=
  mkEnvOf uuid now now write None remove commit None.

(** [str(e)] *)
Definition exn_str (e : exn) : string :=
  match e with
  | HTTPException c d => pretty c +:+ ": " +:+ d
  | Exception msg => msg
  end.

Definition M (A : Type) : Type := World → result A * World * list event.

Definition ret {A} (a : A) : M A := λ w, (Ok a, w, []).

Definition raise {A} (e : exn) : M A := λ w, (Raise e, w, []).

Definition bind {A B} (m : M A) (k : A → M B) : M B := λ w,
  match m w with
  | (Ok a, w1, t1) =>
      match k a w1 with
      | (r, w2, t2) => (r, w2, t1 ++ t2)
      end
  | (Raise e, w1, t1) => (Raise e, w1, t1)
  end.

(** [try: m  except ... : h e] *)
Definition try_except {A} (m : M A) (h : exn → M A) : M A := λ w,
  match m w with
  | (Ok a, w1, t1) => (Ok a, w1, t1)
  | (Raise e, w1, t1) =>
      match h e w1 with
      | (r, w2, t2) => (r, w2, t1 ++ t2)
      end
  end.

Declare Scope py_scope.
Delimit Scope py_scope with py.
Notation "x <- m ;; k" := (bind m (λ x, k))
  (at level 100, m at next level, right associativity) : py_scope.
Notation "m ;;; k" := (bind m (λ _, k))
  (at level 100, right associativity) : py_scope.
Local Open Scope py_scope.

(** *** The file system *)

(** [os.path.exists(path)] *)
Definition os_path_exists (path : string) : M bool := λ w,
  (Ok (bool_decide (is_Some (files w !! path))), w, []).

(** [os.remove(path)] *)
Definition os_remove (env : Env) (path : string) : M unit := λ w,
  match files w !! path with
  | None => (Raise (Exception "No such file or directory"), w, [EvRemoveFailed path])
  | Some _ =>
      match remove_error env with
      | Some msg => (Raise (Exception msg), w, [EvRemoveFailed path])
      | None => (Ok tt, mkWorld (delete path (files w)) (videos w), [EvRemove path])
      end
  end.

(** [async with aiofiles.open(path, 'wb') as f:
      content = await file.read(); await f.write(content)].
    Mode ['wb'] creates or truncates the file when it is opened, so a
    failure of the read or of the write leaves a file at [path], with what
    had been written of the content; only a failure of [open] leaves the
    store as it was. *)
Definition aiofiles_write (env : Env) (path content : string) : M unit := λ w,
  match write_error env with
  | Some msg =>
      match write_partial env with
      | None => (Raise (Exception msg), w, [EvWriteFailed path])
      | Some n =>
          (Raise (Exception msg),
           mkWorld (<[path := Py.upto n content]> (files w)) (videos w),
           [EvWriteFailed path])
      end
  | None => (Ok tt, mkWorld (<[path := content]> (files w)) (videos w), [EvWrite path])
  end.

(** *** The database session *)

(** The change a session holds when [db.commit()] is called. *)
Inductive pending :=
| Added (title : string) (description hashtags : option string)
        (streamtape_url streamtape_id banner_path : string)
| Dirty (video : Video)
| Deleted (video : Video).

Global Instance Video_eq_dec : EqDecision Video.
Proof. solve_decision. Defined.

(** [Video.id == k] *)
Definition has_id (k : Z) (v : Video) : bool := bool_decide (id v = k).

(** The key the store gives a new row: one more than the largest key. *)
Definition next_id (rows : list Video) : Z :=
  foldr Z.max 0 (List.map id rows) + 1.

(** [UPDATE videos SET ... WHERE id = id v], with [updated_at] refreshed. *)
Definition row_update (env : Env) (v : Video) (r : Video) : Video :=
  if has_id (id v) r then
    mkVideo (id v) (title v) (description v) (hashtags v)
            (streamtape_url v) (streamtape_id v) (banner_path v)
            (created_at v) (utcnow env)
  else r.

(** The statements a flush emits.  A new row gets its key and its two
    timestamps, each from its own column default and so from its own
    reading of the clock; a modified row is written only when some column
    differs from the stored row. *)
Definition flush (env : Env) (p : pending) (rows : list Video) : list Video :=
  match p with
  | Added ti de ha url sid bp =>
      rows ++ [mkVideo (next_id rows) ti de ha url sid bp
                       (utcnow env) (utcnow_next env)]
  | Dirty v =>
      if bool_decide (List.find (has_id (id v)) rows = Some v) then rows
      else List.map (row_update env v) rows
  | Deleted v => List.filter (λ r, negb (has_id (id v) r)) rows
  end.

(** The keys the store can hold and compare with: SQLite's signed 64-bit
    integers. *)
Definition in_int64 (k : Z) : bool :=
  (- 2 ^ 63 <=? k) && (k <? 2 ^ 63).

(** [db.query(Video).filter(Video.id == video_id).first()].  The rows of
    the store have keys within its range, so a key outside it has no row;
    binding such a key to the statement raises [OverflowError]. *)
Definition overflow_error : exn :=
  Exception "Python int too large to convert to SQLite INTEGER".

Definition db_query_first (video_id : Z) : M (option Video) := λ w,
  match List.find (has_id video_id) (videos w) with
  | Some video => (Ok (Some video), w, [])
  | None =>
      if in_int64 video_id then (Ok None, w, [])
      else (Raise overflow_error, w, [])
  end.

(** [db.commit()] with the session's pending change. *)
Definition db_commit (env : Env) (p : pending) : M unit := λ w,
  match commit_error env with
  | Some msg => (Raise (Exception msg), w, [EvCommitFailed])
  | None => (Ok tt, mkWorld (files w) (flush env p (videos w)), [EvCommit])
  end.

(** [db.refresh(video)]: the committed row is read again; the read can
    fail, and changes nothing. *)
Definition db_refresh (env : Env) : M unit := λ w,
  match refresh_error env with
  | Some msg => (Raise (Exception msg), w, [])
  | None => (Ok tt, w, [])
  end.

(** ** main.py: file handling and validation *)

Record UploadFile := mkUploadFile {
  filename : option string;
  content_type : option string;
  content : string
}.

Definition opt_truthy (o : option string) : bool :=
  match o with
  | Some s => Py.truthy s
  | None => false
  end.

(** [save_uploaded_file] *)
Definition save_uploaded_file (env : Env) (file : UploadFile) : M string :=
  if negb (opt_truthy (filename file)) then
    raise (HTTPException 400 "No file provided")
  else if negb (opt_truthy (content_type file))
          || negb (Py.startswith (default "" (content_type file)) "image/") then
    raise (HTTPException 400 "Only image files are allowed")
  else
    let name := default "" (filename file) in
    file_extension <-
      (if Py.contains "." name then
         match Py.item_last (Py.split "." name) with
         | Some ext => ret ext
         | None => raise (Exception "list index out of range")
         end
       else ret "jpg") ;;
    let new_name := uuid4 env +:+ "." +:+ file_extension in
    let file_path := "static/banners/" +:+ new_name in
    try_except
      (aiofiles_write env file_path (content file) ;;; ret file_path)
      (λ e, raise (HTTPException 500 ("Failed to save file: " +:+ exn_str e))).

(** [delete_file_safely] *)
Definition delete_file_safely (env : Env) (file_path : string) : M unit :=
  try_except
    (found <- (if Py.truthy file_path then os_path_exists file_path else ret false) ;;
     if found then os_remove env file_path else ret tt)
    (λ _, ret tt).

(** [validate_form_input] *)
Definition validate_form_input (title streamtape_url : string) : result unit :=
  if negb (Py.truthy title) || (String.length (Py.strip title) =? 0)%nat then
    Raise (HTTPException 400 "Title is required")
  else if (255 <? String.length (Py.strip title))%nat then
    Raise (HTTPException 400 "Title too long (max 255 characters)")
  else if negb (Py.truthy streamtape_url)
          || negb (Py.contains "streamtape.com" streamtape_url) then
    Raise (HTTPException 400 "Invalid Streamtape URL - must contain 'streamtape.com'")
  else Ok tt.

Definition lift {A} (r : result A) : M A := λ w, (r, w, []).

(** ** main.py: the admin handlers *)

Inductive Response :=
| RedirectResponse (url : string) (status_code : Z).

(** [x.strip() if x else None] *)
Definition strip_or_none (x : option string) : option string :=
  match x with
  | Some s => if Py.truthy s then Some (Py.strip s) else None
  | None => None
  end.

(** The two [except] clauses of [upload_video]; [file_path] is [Some]
    exactly when the local variable has been assigned. *)
Definition upload_cleanup {A} (env : Env) (file_path : option string) (e : exn)
  : M A :=
  match e with
  | HTTPException _ _ =>
      match file_path with
      | Some p => delete_file_safely env p
      | None => ret tt
      end ;;;
      raise e
  | Exception _ =>
      match file_path with
      | Some p => delete_file_safely env p
      | None => ret tt
      end ;;;
      raise (HTTPException 500 ("Failed to upload video: " +:+ exn_str e))
  end.

(** [upload_video].  The [try] body is cut where [file_path] is assigned:
    an exception before that point finds no [file_path] in [locals()].
    [db.add] only stages the row; the write happens in [db.commit], and
    [db.refresh] reads the row again once it is committed. *)
Definition upload_video (env : Env) (title : string)
    (description hashtags : option string) (streamtape_url : string)
    (banner : UploadFile) : M Response :=
  file_path <-
    try_except
      (lift (validate_form_input title streamtape_url) ;;;
       save_uploaded_file env banner)
      (upload_cleanup env None) ;;
  try_except
    (let streamtape_id := extract_streamtape_id streamtape_url in
     db_commit env
       (Added (Py.strip title) (strip_or_none description)
              (strip_or_none hashtags) (Py.strip streamtape_url)
              streamtape_id file_path) ;;;
     db_refresh env ;;;
     ret (RedirectResponse "/admin" 303))
    (upload_cleanup env (Some file_path)).

(** The [except] clauses shared by the other handlers:
    [except HTTPException: raise] and
    [except Exception as e: raise HTTPException(500, prefix + str(e))]. *)
Definition reraise {A} (prefix : string) (e : exn) : M A :=
  match e with
  | HTTPException _ _ => raise e
  | Exception _ => raise (HTTPException 500 (prefix +:+ exn_str e))
  end.

(** [delete_video] *)
Definition delete_video (env : Env) (video_id : Z) : M Response :=
  try_except
    (video <- db_query_first video_id ;;
     match video with
     | None => raise (HTTPException 404 "Video not found")
     | Some video =>
         delete_file_safely env (banner_path video) ;;;
         db_commit env (Deleted video) ;;;
         ret (RedirectResponse "/admin" 303)
     end)
    (reraise "Failed to delete video: ").

(** The assignments to the basic fields in [update_video]. *)
Definition set_basic_fields (video : Video) (title : string)
    (description hashtags : option string) (streamtape_url : string) : Video :=
  mkVideo (id video) (Py.strip title) (strip_or_none description)
          (strip_or_none hashtags) (Py.strip streamtape_url)
          (extract_streamtape_id streamtape_url)
          (banner_path video) (created_at video) (updated_at video).

Definition set_banner_path (video : Video) (p : string) : Video :=
  mkVideo (id video) (title video) (description video) (hashtags video)
          (streamtape_url video) (streamtape_id video)
          p (created_at video) (updated_at video).

(** [banner and banner.filename] *)
Definition banner_supplied (banner : option UploadFile) : option UploadFile :=
  match banner with
  | Some f => if opt_truthy (filename f) then Some f else None
  | None => None
  end.

(** [update_video] *)
Definition update_video (env : Env) (video_id : Z) (title : string)
    (description hashtags : option string) (streamtape_url : string)
    (banner : option UploadFile) : M Response :=
  try_except
    (video <- db_query_first video_id ;;
     match video with
     | None => raise (HTTPException 404 "Video not found")
     | Some video =>
         lift (validate_form_input title streamtape_url) ;;;
         let old_banner_path := banner_path video in
         let video := set_basic_fields video title description hashtags streamtape_url in
         video <-
           match banner_supplied banner with
           | Some f =>
               new_banner_path <- save_uploaded_file env f ;;
               let video := set_banner_path video new_banner_path in
               (if bool_decide (old_banner_path ≠ new_banner_path)
                then delete_file_safely env old_banner_path
                else ret tt) ;;;
               ret video
           | None => ret video
           end ;;
         db_commit env (Dirty video) ;;;
         ret (RedirectResponse "/admin" 303)
     end)
    (reraise "Failed to update video: ").

(** ** main.py: the JSON endpoint for one video *)

#[local] Set Warnings "-register-all".
Inductive json :=
| JNull
| JInt (n : Z)
| JStr (s : string)
| JList (l : list json)
| JDict (d : list (string * json)).

Definition json_opt (o : option string) : json :=
  match o with
  | Some s => JStr s
  | None => JNull
  end.

Section Api.

(** [datetime.isoformat()] of a stored timestamp. *)
Variable isoformat : Z → string.

(** [get_video_api] *)
Definition get_video_api (video_id : Z) : M json :=
  try_except
    (video <- db_query_first video_id ;;
     match video with
     | None => raise (HTTPException 404 "Video not found")
     | Some video =>
         ret (JDict
           [("status", JStr "success");
            ("video", JDict
              [("id", JInt (id video));
               ("title", JStr (title video));
               ("description", json_opt (description video));
               ("hashtags", JList (List.map JStr (hashtag_list video)));
               ("streamtape_url", JStr (streamtape_url video));
               ("streamtape_id", JStr (streamtape_id video));
               ("embed_url", JStr (embed_url video));
               ("banner_url", JStr ("/" +:+ banner_path video));
               ("watch_url", JStr ("/watch/" +:+ pretty (id video)));
               ("created_at", JStr (isoformat (created_at video)));
               ("updated_at", JStr (isoformat (updated_at video)))])])
     end)
    (reraise "Database error: ").

End Api.

(** [d[k]] on a JSON object. *)
Fixpoint json_get (k : string) (d : list (string * json)) : option json :=
  match d with
  | [] => None
  | (k', v) :: d' => if bool_decide (k = k') then Some v else json_get k d'
  end.

(** ** main.py: the list and statistics endpoints *)

(** [Video.created_at.desc()]: [a] may come before [b]. *)
Definition created_desc (a b : Video) : Prop := created_at b ≤ created_at a.

Global Instance created_desc_dec : RelDecision created_desc.
Proof. intros a b. unfold created_desc. apply _. Defined.

Global Instance created_desc_trans : Transitive created_desc.
Proof. intros a b c. unfold created_desc. lia. Qed.

Global Instance created_desc_total : Total created_desc.
Proof. intros a b. unfold created_desc. lia. Qed.


(** [db.query(Video).order_by(Video.created_at.desc()).limit(n).all()] *)
Definition db_query_desc_limit (n : nat) : M (list Video) := λ w,
  (Ok (take n (merge_sort created_desc (videos w))), w, []).

(** [db.query(Video).all()] and [db.query(Video).count()] *)
Definition db_query_all : M (list Video) := λ w, (Ok (videos w), w, []).
Definition db_query_count : M nat := λ w, (Ok (length (videos w)), w, []).

(** The one [except] clause of the list and statistics endpoints:
    [except Exception as e: raise HTTPException(500, prefix + str(e))]. *)
Definition wrap_error {A} (prefix : string) (e : exn) : M A :=
  raise (HTTPException 500 (prefix +:+ exn_str e)).

(** [all_hashtags.extend(video.hashtag_list)] over all rows. *)
Definition all_hashtags (rows : list Video) : list string :=
  concat (List.map hashtag_list rows).

(** [len(set(l))] *)
Definition len_set (l : list string) : nat :=
  size (list_to_set l : gset string).

Section Lists.

Variable isoformat : Z → string.



(** One entry of the [recent_videos] list of [get_stats]. *)
Definition recent_entry (video : Video) : json :=
  JDict
    [("id", JInt (id video));
     ("title", JStr (title video));
     ("created_at", JStr (isoformat (created_at video)))].

(** [get_stats] *)
Definition get_stats : M json :=
  try_except
    (total_videos <- db_query_count ;;
     recent_videos <- db_query_desc_limit 5 ;;
     rows <- db_query_all ;;
     let unique_hashtags := len_set (all_hashtags rows) in
     ret (JDict
       [("status", JStr "success");
        ("stats", JDict
          [("total_videos", JInt (Z.of_nat total_videos));
           ("unique_hashtags", JInt (Z.of_nat unique_hashtags));
           ("recent_videos", JList (List.map recent_entry recent_videos))])]))
    (wrap_error "Database error: ").

End Lists.

(** ** Reading the result of a run *)

Definition outcome {A} (run : result A * World * list event) : result A := run.1.1.
Definition world_after {A} (run : result A * World * list event) : World := run.1.2.
Definition trace {A} (run : result A * World * list event) : list event := run.2.

(** A row with another stored [hashtags] value. *)
Definition set_hashtags (v : Video) (h : option string) : Video :=
  mkVideo (id v) (title v) (description v) h (streamtape_url v)
          (streamtape_id v) (banner_path v) (created_at v) (updated_at v).

(** ** Statements of the specification, for comparison with the code *)

(** The embed-id rule in the specification's words: the component after
    the first [/e/], otherwise the last non-empty path segment, and the
    sentinel when neither gives a value. *)
Definition extractEmbedId_spec (url : string) : string :=
  let found :=
    match Py.cut "/e/" url with
    | Some (_, after) =>
        match Py.cut "/" after with
        | Some (segment, _) => segment
        | None => after
        end
    | None => default "" (last (List.filter Py.truthy (Py.split "/" url)))
    end in
  if Py.truthy found then found else "invalid_id".

(** [s.split(sep)] stated without the scan.  An occurrence of [sep]
    between [a] and [b] is the leftmost one when no occurrence in
    [a + sep + b] starts earlier; the pieces of a string are the string
    itself when [sep] does not occur in it, and otherwise what precedes
    the leftmost occurrence, followed by the pieces of what follows it. *)
Definition leftmost (sep a b : string) : Prop :=
  ∀ a' b', a +:+ sep +:+ b = a' +:+ sep +:+ b' →
           (String.length a ≤ String.length a')%nat.

Inductive split_into (sep : string) : string → list string → Prop :=
| split_whole s : Py.contains sep s = false → split_into sep s [s]
| split_at s a b l :
    s = a +:+ sep +:+ b → leftmost sep a b → split_into sep b l →
    split_into sep s (a :: l).

(** The hashtag list in the specification's words: split at commas, trim
    every entry, drop the empty ones. *)
Definition hashtag_list_spec (stored : string) : list string :=
  List.filter Py.truthy (List.map Py.strip (Py.split "," stored)).

(** The two validation failures. *)
Definition InvalidTitle (e : exn) : Prop :=
  e = HTTPException 400 "Title is required"
  ∨ e = HTTPException 400 "Title too long (max 255 characters)".

Definition InvalidEmbedUrl (e : exn) : Prop :=
  e = HTTPException 400 "Invalid Streamtape URL - must contain 'streamtape.com'".

Definition title_rejected (title : string) : Prop :=
  Py.strip title = "" ∨ (255 < String.length (Py.strip title))%nat.

Definition url_rejected (url : string) : Prop :=
  url = "" ∨ Py.contains "streamtape.com" url = false.

(** In a trace, every removal of [path] comes after a successful commit. *)
Definition removed_only_after_commit (path : string) (t : list event) : Prop :=
  ∀ i, t !! i = Some (EvRemove path) → ∃ j, (j < i)%nat ∧ t !! j = Some EvCommit.

(** In a trace, every removal of [path] comes after the write of [new]
    and before any commit is attempted. *)
Definition removed_after_write_before_commit
    (path new : string) (t : list event) : Prop :=
  ∀ i, t !! i = Some (EvRemove path) →
    (∃ j, (j < i)%nat ∧ t !! j = Some (EvWrite new))
    ∧ ∀ j, (j < i)%nat → t !! j ≠ Some EvCommit ∧ t !! j ≠ Some EvCommitFailed.

(** No [os.remove] is called in a trace. *)
Definition no_removal (t : list event) : Prop :=
  ∀ p, (EvRemove p ∉ t) ∧ (EvRemoveFailed p ∉ t).

(** ** The steps of the handlers, as values *)

(** The path a stored banner gets. *)
Definition banner_file_path (env : Env) (file : UploadFile) : string :=
  let name := default "" (filename file) in
  "static/banners/" +:+ uuid4 env +:+ "." +:+
    (if Py.contains "." name
     then default "jpg" (Py.item_last (Py.split "." name))
     else "jpg").

(** The precondition checks of [save_uploaded_file]. *)
Definition upload_precheck (file : UploadFile) : result unit :=
  if negb (opt_truthy (filename file)) then
    Raise (HTTPException 400 "No file provided")
  else if negb (opt_truthy (content_type file))
          || negb (Py.startswith (default "" (content_type file)) "image/") then
    Raise (HTTPException 400 "Only image files are allowed")
  else Ok tt.

(** The world a failed write of the banner leaves: as it was when
    [open] failed, and with the characters written under the new path
    when the failure came later. *)
Definition write_failed (env : Env) (file : UploadFile) (w : World) : World :=
  match write_partial env with
  | None => w
  | Some n =>
      mkWorld (<[banner_file_path env file := Py.upto n (content file)]> (files w))
              (videos w)
  end.

(** What a handler answers to a key that has no row: 404 within the range
    of the store, and the 500 its [except Exception] makes of the
    [OverflowError] outside. *)
Definition no_row (prefix : string) (video_id : Z) : exn :=
  if in_int64 video_id then HTTPException 404 "Video not found"
  else HTTPException 500 (prefix +:+ exn_str overflow_error).

(** The world once the banner file has been written. *)
Definition stored (env : Env) (file : UploadFile) (w : World) : World :=
  mkWorld (<[banner_file_path env file := content file]> (files w)) (videos w).

(** What [db.commit()] and the [except] clauses make of a handler's last
    step: the response, or the 500 error with the handler's prefix. *)
Definition committed (env : Env) (prefix : string) (p : pending)
    (w : World) (t : list event) : result Response * World * list event :=
  match commit_error env with
  | None =>
      (Ok (RedirectResponse "/admin" 303),
       mkWorld (files w) (flush env p (videos w)), t ++ [EvCommit])
  | Some msg =>
      (Raise (HTTPException 500 (prefix +:+ msg)), w, t ++ [EvCommitFailed])
  end.

(** The banner step of [update_video] when a new file has been stored. *)
Definition old_banner_removed (env : Env) (old : string) (file : UploadFile)
    (w : World) : result unit * World * list event :=
  if bool_decide (old ≠ banner_file_path env file)
  then delete_file_safely env old (stored env file w)
  else (Ok tt, stored env file w, []).

(** ** The write routes *)

(** The two write routes, [POST /admin/upload] and
    [POST /admin/edit/{video_id}]. *)
Inductive request :=
| Upload (title : string) (description hashtags : option string)
         (streamtape_url : string) (banner : UploadFile)
| Update (video_id : Z) (title : string) (description hashtags : option string)
         (streamtape_url : string) (banner : option UploadFile).

(** The handler of a route. *)
Definition handle (env : Env) (req : request) : M Response :=
  match req with
  | Upload ti de ha url banner => upload_video env ti de ha url banner
  | Update k ti de ha url banner => update_video env k ti de ha url banner
  end.

(** The key of the row a request writes. *)
Definition target (req : request) (w : World) : Z :=
  match req with
  | Upload _ _ _ _ _ => next_id (videos w)
  | Update k _ _ _ _ _ => k
  end.

(** The [title] and [streamtape_url] fields of the submitted form. *)
Definition form_title (req : request) : string :=
  match req with
  | Upload ti _ _ _ _ => ti
  | Update _ ti _ _ _ _ => ti
  end.

Definition form_url (req : request) : string :=
  match req with
  | Upload _ _ _ url _ => url
  | Update _ _ _ _ url _ => url
  end.

(** The banner file a request stores, if any. *)
Definition new_banner (req : request) : option UploadFile :=
  match req with
  | Upload _ _ _ _ banner => Some banner
  | Update _ _ _ _ _ banner => banner_supplied banner
  end.

(** ** Variations of a row and of the environment *)

(** The environment of a request with another outcome of [os.remove]. *)
Definition with_remove_error (env : Env) (re : option string) : Env :=
  mkEnvOf (uuid4 env) (utcnow env) (utcnow_next env)
          (write_error env) (write_partial env) re
          (commit_error env) (refresh_error env).

(** A row with another stored [streamtape_url]. *)
Definition set_streamtape_url (v : Video) (url : string) : Video :=
  mkVideo (id v) (title v) (description v) (hashtags v) url
          (streamtape_id v) (banner_path v) (created_at v) (updated_at v).

(** ** Sample data *)

Definition sample_env : Env := mkEnv "3f2b" 1700000000 None None None.

Definition sample_video : Video :=
  mkVideo 1 "Intro" (Some "first") (Some "a, b")
    "https://streamtape.com/e/ABC123/" "ABC123"
    "static/banners/old.jpg" 1600000000 1600000000.

Definition sample_world : World :=
  mkWorld {["static/banners/old.jpg" := "old image"]} [sample_video].

Definition sample_image : UploadFile :=
  mkUploadFile (Some "cover.png") (Some "image/png") "new image".

(** ** The admin routes together *)

(** The three routes that change the world: the two write routes and
    [POST /admin/delete/{video_id}]. *)
Inductive admin_request :=
| Write (req : request)
| Delete (video_id : Z).

Definition admin_handle (env : Env) (req : admin_request) : M Response :=
  match req with
  | Write req => handle env req
  | Delete k => delete_video env k
  end.

(** The key a request addresses: the one it is given, or the one the new
    row will get. *)
Definition addressed (req : admin_request) (w : World) : Z :=
  match req with
  | Write req => target req w
  | Delete k => k
  end.

(** The primary keys of a table. *)
Definition ids (rows : list Video) : list Z := List.map id rows.

(** ** More sample data and shapes of strings *)

Definition sample_video2 : Video :=
  mkVideo 2 "Second" None (Some "b, c")
    "https://streamtape.com/e/DEF/" "DEF"
    "static/banners/new.png" 1650000000 1650000000.

Definition sample_world2 : World :=
  mkWorld {["static/banners/old.jpg" := "old image";
            "static/banners/new.png" := "new image"]}
          [sample_video; sample_video2].

(** A tag as the hashtag list shows it: not empty, without surrounding
    whitespace and without a comma. *)
Definition clean_tag (tag : string) : Prop :=
  tag ≠ "" ∧ Py.strip tag = tag ∧ Py.contains "," tag = false.

(** A write request with another title. *)
Definition with_title (req : request) (ti : string) : request :=
  match req with
  | Upload _ de ha url banner => Upload ti de ha url banner
  | Update k _ de ha url banner => Update k ti de ha url banner
  end.

(** * Properties *)

(** ** Strings *)

Section strings.
Implicit Types s t p sep : string.

Lemma str_app_nil_l s : "" +:+ s = s.
Proof. reflexivity. Qed.

Lemma str_app_cons c s t : String c s +:+ t = String c (s +:+ t).
Proof. reflexivity. Qed.

Lemma str_app_nil_r s : s +:+ "" = s.
Proof. induction s as [|c s IH]; [done|]. by rewrite str_app_cons, IH. Qed.

Lemma str_app_assoc s t p : (s +:+ t) +:+ p = s +:+ t +:+ p.
Proof. induction s as [|c s IH]; [done|]. by rewrite !str_app_cons, IH. Qed.

Lemma str_length_app s t :
  String.length (s +:+ t) = (String.length s + String.length t)%nat.
Proof. induction s as [|c s IH]; [done|]. rewrite str_app_cons. simpl. by rewrite IH. Qed.

Lemma str_length_zero s : String.length s = 0%nat ↔ s = "".
Proof. by destruct s. Qed.

Lemma truthy_false s : Py.truthy s = false ↔ s = "".
Proof. by destruct s. Qed.

Lemma truthy_true s : Py.truthy s = true ↔ s ≠ "".
Proof. by destruct s. Qed.

Lemma strip_prefix_Some p s r : Py.strip_prefix p s = Some r ↔ s = p +:+ r.
Proof.
  revert s. induction p as [|a p IH]; intros s; simpl.
  - rewrite str_app_nil_l. naive_solver.
  - destruct s as [|b s]; [by rewrite str_app_cons|].
    rewrite str_app_cons. destruct (Ascii.eqb_spec a b) as [->|Hne].
    + rewrite IH. split; [by intros ->|by intros [=]].
    + split; [done|]. intros [=]. done.
Qed.

Lemma strip_prefix_app p s r t :
  Py.strip_prefix p s = Some r → Py.strip_prefix p (s +:+ t) = Some (r +:+ t).
Proof. rewrite !strip_prefix_Some. intros ->. by rewrite str_app_assoc. Qed.

Lemma cut_Some sep s a b : Py.cut sep s = Some (a, b) → s = a +:+ sep +:+ b.
Proof.
  revert a. induction s as [|c s IH]; intros a; simpl.
  - destruct (Py.strip_prefix sep "") as [r|] eqn:Hp; [|done].
    intros [= <- <-]. by apply strip_prefix_Some in Hp.
  - destruct (Py.strip_prefix sep (String c s)) as [r|] eqn:Hp.
    + intros [= <- <-]. by apply strip_prefix_Some in Hp.
    + destruct (Py.cut sep s) as [[a' b']|]; [|done].
      intros [= <- <-]. rewrite str_app_cons. f_equal. by apply IH.
Qed.

Lemma cut_nil sep : sep ≠ "" → Py.cut sep "" = None.
Proof. by destruct sep. Qed.

(** Nothing before the leftmost occurrence contains the separator. *)
Lemma cut_Some_before sep s a b :
  sep ≠ "" → Py.cut sep s = Some (a, b) → Py.cut sep a = None.
Proof.
  intros Hsep. revert a. induction s as [|c s IH]; intros a.
  - by rewrite cut_nil.
  - simpl. destruct (Py.strip_prefix sep (String c s)) as [r|] eqn:Hp.
    { intros [= <- <-]. by apply cut_nil. }
    destruct (Py.cut sep s) as [[a' b']|] eqn:Hc; [|done].
    intros [= <- <-]. simpl.
    destruct (Py.strip_prefix sep (String c a')) as [r'|] eqn:Hp'.
    + apply cut_Some in Hc. subst s.
      apply (strip_prefix_app _ _ _ (sep +:+ b')) in Hp'.
      rewrite str_app_cons in Hp'. congruence.
    + by rewrite (IH a').
Qed.

Lemma cut_length sep s a b :
  sep ≠ "" → Py.cut sep s = Some (a, b) → (String.length b < String.length s)%nat.
Proof.
  intros Hsep ->%cut_Some. rewrite !str_length_app.
  destruct sep; [done|]. simpl. lia.
Qed.

Lemma contains_false sep s : Py.contains sep s = false ↔ Py.cut sep s = None.
Proof. unfold Py.contains. by destruct (Py.cut sep s). Qed.

Lemma contains_true sep s :
  Py.contains sep s = true ↔ ∃ a b, Py.cut sep s = Some (a, b).
Proof.
  unfold Py.contains. destruct (Py.cut sep s) as [[a b]|].
  - split; [by exists a, b|done].
  - split; [done|]. by intros (a & b & ?).
Qed.

(** The last piece of a split holds no separator and ends the string. *)
Lemma split_fuel_last sep s fuel :
  sep ≠ "" → (String.length s ≤ fuel)%nat →
  ∃ t, last (Py.split_fuel fuel sep s) = Some t
       ∧ Py.cut sep t = None
       ∧ ((Py.cut sep s = None ∧ t = s) ∨ ∃ pre, s = pre +:+ sep +:+ t).
Proof.
  intros Hsep. revert s. induction fuel as [|fuel IH]; intros s Hlen.
  - assert (s = "") as -> by (apply str_length_zero; lia).
    exists "". split_and!; [done|by apply cut_nil|].
    left. split; [by apply cut_nil|done].
  - simpl. destruct (Py.cut sep s) as [[a b]|] eqn:Hc.
    + destruct (IH b) as (t & Hlast & Hnone & Hdec).
      { pose proof (cut_length _ _ _ _ Hsep Hc). lia. }
      exists t. rewrite last_cons, Hlast. split_and!; [done..|].
      right. apply cut_Some in Hc. destruct Hdec as [[_ ->]|[pre ->]].
      * by exists a.
      * exists (a +:+ sep +:+ pre). by rewrite !str_app_assoc.
    + exists s. auto.
Qed.

Lemma split_last sep s :
  sep ≠ "" →
  ∃ t, Py.item_last (Py.split sep s) = Some t
       ∧ Py.cut sep t = None
       ∧ ((Py.cut sep s = None ∧ t = s) ∨ ∃ pre, s = pre +:+ sep +:+ t).
Proof. intros Hsep. by apply split_fuel_last. Qed.

(** The first piece of a split is what precedes the leftmost separator. *)
Lemma split_first sep s :
  sep ≠ "" →
  Py.item_first (Py.split sep s)
  = Some (match Py.cut sep s with Some (a, _) => a | None => s end).
Proof.
  intros Hsep. unfold Py.split, Py.item_first.
  destruct (String.length s) as [|n] eqn:Hlen.
  - apply str_length_zero in Hlen as ->. by rewrite cut_nil.
  - cbn [Py.split_fuel]. by destruct (Py.cut sep s) as [[a b]|].
Qed.

Lemma split_no_sep sep s : Py.cut sep s = None → Py.split sep s = [s].
Proof.
  intros H. unfold Py.split.
  destruct (String.length s); cbn [Py.split_fuel]; [done|]. by rewrite H.
Qed.

Lemma replace_no_sep old new s : Py.cut old s = None → Py.replace old new s = s.
Proof. intros H. unfold Py.replace. by rewrite split_no_sep. Qed.

Lemma cut_app_intro sep a b : is_Some (Py.cut sep (a +:+ sep +:+ b)).
Proof.
  induction a as [|c a IH].
  - rewrite str_app_nil_l. destruct (sep +:+ b) eqn:Hs; simpl.
    + assert (Py.strip_prefix sep "" = Some b) as -> by (by apply strip_prefix_Some).
      eauto.
    + assert (Py.strip_prefix sep (String a s) = Some b) as ->
        by (by apply strip_prefix_Some). eauto.
  - rewrite str_app_cons. simpl.
    destruct (Py.strip_prefix sep _); [eauto|].
    destruct IH as [[x y] ->]. eauto.
Qed.

(** [Py.cut] finds the leftmost occurrence. *)
Lemma cut_leftmost sep s a b : Py.cut sep s = Some (a, b) → leftmost sep a b.
Proof.
  revert a. induction s as [|c s IH]; intros a; simpl.
  - destruct (Py.strip_prefix sep "") as [r|]; [|done].
    intros [= <- <-] a' b' _. simpl. lia.
  - destruct (Py.strip_prefix sep (String c s)) as [r|] eqn:Hp.
    { intros [= <- <-] a' b' _. simpl. lia. }
    destruct (Py.cut sep s) as [[a0 b0]|] eqn:Hc; [|done].
    intros [= <- <-] a' b' Heq. pose proof (cut_Some _ _ _ _ Hc) as Hs.
    rewrite str_app_cons, <- Hs in Heq. destruct a' as [|c' a'].
    + rewrite str_app_nil_l in Heq. apply strip_prefix_Some in Heq. congruence.
    + rewrite str_app_cons in Heq. injection Heq as <- Heq. rewrite Hs in Heq.
      specialize (IH a0 eq_refl a' b' Heq). simpl. lia.
Qed.

Lemma str_app_inj_length a a' x x' :
  a +:+ x = a' +:+ x' → String.length a = String.length a' → a = a' ∧ x = x'.
Proof.
  revert a'. induction a as [|c a IH]; intros [|c' a'] H Hl.
  - split; [done|exact H].
  - discriminate Hl.
  - discriminate Hl.
  - rewrite !str_app_cons in H. injection H as -> H. injection Hl as Hl.
    by destruct (IH a' H Hl) as [-> ->].
Qed.

(** The scan of [Py.split] gives the pieces, and nothing else does. *)
Lemma split_fuel_into sep s fuel :
  sep ≠ "" → (String.length s ≤ fuel)%nat →
  split_into sep s (Py.split_fuel fuel sep s).
Proof.
  intros Hsep. revert s. induction fuel as [|fuel IH]; intros s Hlen.
  - assert (s = "") as -> by (apply str_length_zero; lia).
    apply split_whole, contains_false. by apply cut_nil.
  - cbn [Py.split_fuel]. destruct (Py.cut sep s) as [[a b]|] eqn:Hc.
    + eapply split_at; [by apply cut_Some|by eapply cut_leftmost|].
      apply IH. pose proof (cut_length _ _ _ _ Hsep Hc). lia.
    + by apply split_whole, contains_false.
Qed.

Lemma split_into_split sep s : sep ≠ "" → split_into sep s (Py.split sep s).
Proof. intros Hsep. by apply split_fuel_into. Qed.

Lemma split_into_unique sep s l l' :
  split_into sep s l → split_into sep s l' → l = l'.
Proof.
  intros H. revert l'.
  induction H as [s Hn|s a b l Hs Hleft Hl IH]; intros l' H'.
  - inversion H' as [s' Hn'|s' a' b' l'' Hs' _ _]; subst; [done|].
    apply contains_false in Hn.
    destruct (cut_app_intro sep a' b') as [x Hx]. congruence.
  - inversion H' as [s' Hn'|s' a' b' l'' Hs' Hleft' Hl']; subst.
    + apply contains_false in Hn'.
      destruct (cut_app_intro sep a b) as [x Hx]. congruence.
    + pose proof (Hleft _ _ Hs') as H1.
      pose proof (Hleft' _ _ (eq_sym Hs')) as H2.
      destruct (str_app_inj_length _ _ _ _ Hs') as [<- Hrest]; [lia|].
      destruct (str_app_inj_length _ _ _ _ Hrest eq_refl) as [_ <-].
      f_equal. by apply IH.
Qed.

End strings.

(** ** The primitives on examples *)

Example isspace_codes :
  List.filter (λ n, Py.isspace (ascii_of_nat n)) (seq 0 256)
  = [9; 10; 11; 12; 13; 28; 29; 30; 31; 32; 133; 160]%nat.
Proof. vm_compute; reflexivity. Qed.

Example strip_example : Py.strip "  a b  " = "a b".
Proof. reflexivity. Qed.

Example split_example : Py.split "," "a, b,, c " = ["a"; " b"; ""; " c "].
Proof. reflexivity. Qed.

Example split_no_overlap : Py.split "/e/" "/e/e/" = [""; "e/"].
Proof. reflexivity. Qed.

Example replace_example : Py.replace "/" "" "a/b/c" = "abc".
Proof. reflexivity. Qed.

(** ** The embed id *)

Lemma slash_e_nonempty : "/e/" ≠ "".
Proof. done. Qed.

Lemma slash_nonempty : "/" ≠ "".
Proof. done. Qed.

(** With [/e/] in the URL the result is the first [/]-component of the
    last piece of the [/e/]-split. *)
Lemma extract_embed_branch url :
  Py.contains "/e/" url = true →
  ∃ t, Py.item_last (Py.split "/e/" url) = Some t
       ∧ extract_streamtape_id url
         = match Py.cut "/" t with Some (a, _) => a | None => t end.
Proof.
  intros Hin. unfold extract_streamtape_id, extract_body. rewrite Hin.
  destruct (split_last "/e/" url slash_e_nonempty) as (t & -> & _).
  exists t. split; [done|]. cbn [mbind option_bind].
  by rewrite split_first.
Qed.

(** Without [/e/] the result is the last piece of the [/]-split. *)
Lemma extract_plain_branch url :
  Py.contains "/e/" url = false →
  ∃ t, Py.item_last (Py.split "/" url) = Some t
       ∧ Py.cut "/" t = None ∧ extract_streamtape_id url = t.
Proof.
  intros Hin. unfold extract_streamtape_id, extract_body. rewrite Hin.
  destruct (split_last "/" url slash_nonempty) as (t & -> & Hnone & _).
  exists t. split_and!; [done..|]. cbn [mbind option_bind].
  by rewrite replace_no_sep.
Qed.

(** The [try] body never raises on a string. *)
Lemma extract_body_total url : extract_body url = Some (extract_streamtape_id url).
Proof.
  unfold extract_streamtape_id, extract_body.
  destruct (Py.contains "/e/" url).
  - destruct (split_last "/e/" url slash_e_nonempty) as (t & -> & _).
    cbn [mbind option_bind]. by rewrite split_first.
  - by destruct (split_last "/" url slash_nonempty) as (t & -> & _).
Qed.

(** C3 (as the code has it): the two quoted URLs give ["ABC123"]; the
    result never holds a [/]; when the URL contains [/e/] the result is the
    component, up to the next [/], of the last piece of [url.split('/e/')]:
    it follows an occurrence of [/e/] after which no further [/e/] occurs
    (the last one of the scan, not the first), so
    ["https://streamtape.com/e/e/XYZ"] gives ["e"]; otherwise it is the
    last piece of [url.split('/')], the text after the last [/] (the whole
    URL when there is none), which is empty for a URL that ends in [/].
    The pieces are those of the split stated without the scan, which has
    one list of pieces only.  The sentinel is only what the [except] arm
    returns, and the [try] body raises on no string. *)
Theorem extract_streamtape_id_rule (url : string) :
  extract_streamtape_id "https://streamtape.com/e/ABC123/" = "ABC123"
  ∧ extract_streamtape_id "https://streamtape.com/ABC123" = "ABC123"
  ∧ extract_streamtape_id "https://streamtape.com/e/e/XYZ" = "e"
  ∧ extract_body url = Some (extract_streamtape_id url)
  ∧ Py.contains "/" (extract_streamtape_id url) = false
  ∧ split_into "/e/" url (Py.split "/e/" url)
  ∧ split_into "/" url (Py.split "/" url)
  ∧ if Py.contains "/e/" url then
      ∃ pre rest,
        url = pre +:+ "/e/" +:+ extract_streamtape_id url +:+ rest
        ∧ (rest = "" ∨ ∃ r, rest = "/" +:+ r)
        ∧ Py.contains "/e/" (extract_streamtape_id url +:+ rest) = false
        ∧ Py.item_last (Py.split "/e/" url)
          = Some (extract_streamtape_id url +:+ rest)
        ∧ ∀ pieces, split_into "/e/" url pieces →
                    last pieces = Some (extract_streamtape_id url +:+ rest)
    else
      (extract_streamtape_id url = url
       ∨ ∃ pre, url = pre +:+ "/" +:+ extract_streamtape_id url)
      ∧ Py.item_last (Py.split "/" url) = Some (extract_streamtape_id url)
      ∧ ∀ pieces, split_into "/" url pieces →
                  last pieces = Some (extract_streamtape_id url).
Proof.
  split; [reflexivity|]. split; [reflexivity|]. split; [reflexivity|].
  split; [apply extract_body_total|].
  assert (∀ sep t, sep ≠ "" → Py.item_last (Py.split sep url) = Some t →
            ∀ pieces, split_into sep url pieces → last pieces = Some t) as Hpin.
  { intros sep t Hsep Ht pieces Hp.
    by rewrite (split_into_unique _ _ _ _ Hp (split_into_split sep url Hsep)). }
  split.
  { destruct (Py.contains "/e/" url) eqn:Hin.
    - destruct (extract_embed_branch url Hin) as (t & _ & ->).
      destruct (Py.cut "/" t) as [[a b]|] eqn:Hc.
      + apply contains_false. by apply (cut_Some_before _ _ _ _ slash_nonempty Hc).
      + by apply contains_false.
    - destruct (extract_plain_branch url Hin) as (t & _ & Hnone & ->).
      by apply contains_false. }
  split; [by apply split_into_split|]. split; [by apply split_into_split|].
  destruct (Py.contains "/e/" url) eqn:Hin.
  - destruct (extract_embed_branch url Hin) as (t & Hlast & ->).
    destruct (split_last "/e/" url slash_e_nonempty) as (t' & Hlast' & Hnone & Hdec).
    rewrite Hlast in Hlast'. injection Hlast' as <-.
    destruct Hdec as [[Hcut _]|[pre Hurl]].
    { apply contains_true in Hin as (a & b & Hab). congruence. }
    destruct (Py.cut "/" t) as [[a b]|] eqn:Hc.
    + apply cut_Some in Hc.
      exists pre, ("/" +:+ b). rewrite <- Hc. split_and!; [done|eauto| |done|].
      * by apply contains_false.
      * by apply Hpin.
    + exists pre, "". rewrite str_app_nil_r. split_and!; [done|auto| |done|].
      * by apply contains_false.
      * by apply Hpin.
  - destruct (extract_plain_branch url Hin) as (t & Hlast & Hnone & ->).
    destruct (split_last "/" url slash_nonempty) as (t' & Hlast' & _ & Hdec).
    rewrite Hlast in Hlast'. injection Hlast' as <-.
    split_and!; [|done|by apply Hpin].
    destruct Hdec as [[_ ->]|[pre ->]]; eauto.
Qed.

(** C3 (as the claim states it) fails: with two [/e/] the code takes what
    follows the last one; a URL that ends in [/] gives the empty string
    rather than its last non-empty segment; and a URL without any segment
    gives the empty string rather than the sentinel. *)
Lemma extract_streamtape_id_not_spec :
  extract_streamtape_id "https://streamtape.com/e/ABC/e/DEF" = "DEF"
  ∧ extractEmbedId_spec "https://streamtape.com/e/ABC/e/DEF" = "ABC"
  ∧ extract_streamtape_id "https://streamtape.com/ABC123/" = ""
  ∧ extractEmbedId_spec "https://streamtape.com/ABC123/" = "ABC123"
  ∧ extract_streamtape_id "" = ""
  ∧ extractEmbedId_spec "" = "invalid_id"
  ∧ ¬ (∀ url, extract_streamtape_id url = extractEmbedId_spec url).
Proof.
  split_and!; [reflexivity..|].
  intros H. specialize (H ""). discriminate H.
Qed.

(** ** The hashtag list *)

Lemma map_filter_strip (l : list string) :
  List.map Py.strip (List.filter (λ tag, Py.truthy (Py.strip tag)) l)
  = List.filter Py.truthy (List.map Py.strip l).
Proof.
  induction l as [|x l IH]; [done|]. simpl.
  destruct (Py.truthy (Py.strip x)); simpl; by rewrite IH.
Qed.

Lemma filter_sublist {A} (f : A → bool) (l : list A) :
  List.filter f l `sublist_of` l.
Proof.
  induction l as [|x l IH]; simpl; [constructor|].
  destruct (f x); by constructor.
Qed.

Lemma filter_all {A} (f : A → bool) (l : list A) :
  Forall (λ x, f x = true) (List.filter f l).
Proof.
  induction l as [|x l IH]; simpl; [constructor|].
  destruct (f x) eqn:Hx; [by constructor|done].
Qed.

(** C9: the hashtag list is empty for a missing or empty stored value and
    otherwise the comma-split entries, trimmed, without the empty ones and
    in their order; ["a, b,, c "] gives [a], [b], [c]. *)
Theorem hashtag_list_correct (v : Video) :
  hashtag_list v
  = match hashtags v with Some s => hashtag_list_spec s | None => [] end
  ∧ match hashtags v with
    | Some s =>
        hashtag_list v `sublist_of` List.map Py.strip (Py.split "," s)
        ∧ Forall (λ tag, tag ≠ "") (hashtag_list v)
    | None => hashtag_list v = []
    end
  ∧ hashtag_list (set_hashtags v None) = []
  ∧ hashtag_list (set_hashtags v (Some "")) = []
  ∧ hashtag_list (set_hashtags v (Some "a, b,, c ")) = ["a"; "b"; "c"].
Proof.
  assert (hashtag_list v
    = match hashtags v with Some s => hashtag_list_spec s | None => [] end) as Heq.
  { unfold hashtag_list, hashtag_list_spec. destruct (hashtags v) as [s|]; [|done].
    destruct (Py.truthy s) eqn:Hs; simpl; [apply map_filter_strip|].
    by apply truthy_false in Hs as ->. }
  split; [exact Heq|]. split_and!.
  - rewrite Heq. destruct (hashtags v) as [s|]; [|done]. split.
    + apply filter_sublist.
    + eapply Forall_impl; [apply filter_all|]. intros x Hx. by apply truthy_true.
  - reflexivity.
  - reflexivity.
  - reflexivity.
Qed.

(** ** The file store and the table *)

Lemma delete_file_safely_run env p w :
  delete_file_safely env p w
  = if Py.truthy p && bool_decide (is_Some (files w !! p)) then
      match remove_error env with
      | None => (Ok tt, mkWorld (delete p (files w)) (videos w), [EvRemove p])
      | Some _ => (Ok tt, w, [EvRemoveFailed p])
      end
    else (Ok tt, w, []).
Proof.
  unfold delete_file_safely, try_except, bind, os_path_exists, os_remove, ret.
  destruct (Py.truthy p); simpl; [|done].
  case_bool_decide as Hex; simpl.
  - destruct Hex as [c Hc]. rewrite Hc. by destruct (remove_error env).
  - done.
Qed.

(** [delete_file_safely] never raises and never touches the table. *)
Lemma delete_file_safely_ok env p w :
  outcome (delete_file_safely env p w) = Ok tt
  ∧ videos (world_after (delete_file_safely env p w)) = videos w.
Proof.
  rewrite delete_file_safely_run.
  destruct (_ && _); [|done]. by destruct (remove_error env).
Qed.

Lemma split_last_is_Some sep s :
  sep ≠ "" → ∃ t, Py.item_last (Py.split sep s) = Some t.
Proof. intros H. destruct (split_last sep s H) as (t & ? & _). eauto. Qed.

Lemma save_uploaded_file_run env file w :
  save_uploaded_file env file w
  = match upload_precheck file with
    | Raise e => (Raise e, w, [])
    | Ok _ =>
        let p := banner_file_path env file in
        match write_error env with
        | Some msg =>
            (Raise (HTTPException 500 ("Failed to save file: " +:+ msg)),
             write_failed env file w, [EvWriteFailed p])
        | None =>
            (Ok p, mkWorld (<[p := content file]> (files w)) (videos w), [EvWrite p])
        end
    end.
Proof.
  unfold save_uploaded_file, upload_precheck, write_failed, banner_file_path.
  destruct (negb (opt_truthy (filename file))); [done|].
  destruct (_ || _); [done|].
  unfold bind, try_except, aiofiles_write, ret, raise.
  destruct (Py.contains "." _) eqn:Hdot.
  - destruct (split_last_is_Some "." (default "" (filename file))) as [ext ->]; [done|].
    simpl. destruct (write_error env); [|done]. by destruct (write_partial env).
  - simpl. destruct (write_error env); [|done]. by destruct (write_partial env).
Qed.

(** A failed write leaves the table alone, and every file but the one
    it was writing. *)
Lemma write_failed_videos env file w : videos (write_failed env file w) = videos w.
Proof. unfold write_failed. by destruct (write_partial env). Qed.

Lemma write_failed_files env file w q :
  q ≠ banner_file_path env file →
  files (write_failed env file w) !! q = files w !! q.
Proof.
  intros Hq. unfold write_failed. destruct (write_partial env); [|done].
  by apply lookup_insert_ne.
Qed.

Lemma has_id_true k v : has_id k v = true ↔ id v = k.
Proof. unfold has_id. by rewrite bool_decide_eq_true. Qed.

Lemma find_has_id k rows v : List.find (has_id k) rows = Some v → id v = k.
Proof. intros [_ H]%find_some. by apply has_id_true. Qed.

(** All keys of a table are below [next_id]. *)
Lemma next_id_above rows v : v ∈ rows → id v < next_id rows.
Proof.
  unfold next_id. induction 1 as [v rows|v u rows _ IH]; simpl; lia.
Qed.

Lemma next_id_fresh rows : List.find (has_id (next_id rows)) rows = None.
Proof.
  destruct (List.find _ rows) as [v|] eqn:Hf; [|done].
  apply find_some in Hf as [Hin Hid]. apply has_id_true in Hid.
  apply list_elem_of_In, next_id_above in Hin. lia.
Qed.

Lemma find_app_None {A} (f : A → bool) l1 l2 :
  List.find f l1 = None → List.find f (l1 ++ l2) = List.find f l2.
Proof.
  induction l1 as [|x l1 IH]; simpl; [done|].
  destruct (f x); [done|]. apply IH.
Qed.

(** After the flush of an added row, the row is found under its new key. *)
Lemma flush_added_find env ti de ha url sid bp rows :
  List.find (has_id (next_id rows)) (flush env (Added ti de ha url sid bp) rows)
  = Some (mkVideo (next_id rows) ti de ha url sid bp
            (utcnow env) (utcnow_next env)).
Proof.
  simpl. rewrite find_app_None by apply next_id_fresh.
  simpl. unfold has_id. simpl. by rewrite bool_decide_eq_true_2.
Qed.

Lemma find_row_update env v rows old :
  List.find (has_id (id v)) rows = Some old →
  List.find (has_id (id v)) (List.map (row_update env v) rows)
  = Some (row_update env v old).
Proof.
  induction rows as [|r rows IH]; simpl; [done|].
  destruct (has_id (id v) r) eqn:Hr.
  - intros [= ->]. unfold row_update at 1. rewrite Hr. simpl.
    unfold has_id at 1. simpl. rewrite bool_decide_eq_true_2 by done.
    unfold row_update. by rewrite Hr.
  - intros H. unfold row_update at 1. rewrite Hr, Hr. by apply IH.
Qed.

(** After the flush of a modified row, the row found under its key has
    the new columns; only [updated_at] may differ from the object. *)
Lemma flush_dirty_find env v rows old :
  List.find (has_id (id v)) rows = Some old →
  ∃ u, List.find (has_id (id v)) (flush env (Dirty v) rows)
       = Some (mkVideo (id v) (title v) (description v) (hashtags v)
                 (streamtape_url v) (streamtape_id v) (banner_path v)
                 (created_at v) u).
Proof.
  intros Hold. simpl. case_bool_decide as Hsame.
  - exists (updated_at v). rewrite Hsame. by destruct v.
  - exists (utcnow env). rewrite (find_row_update _ _ _ _ Hold).
    unfold row_update. apply find_has_id in Hold.
    by rewrite (proj2 (has_id_true _ _) Hold).
Qed.

Lemma flush_dirty_find_key env v rows old k :
  id v = k →
  List.find (has_id k) rows = Some old →
  ∃ u, List.find (has_id k) (flush env (Dirty v) rows)
       = Some (mkVideo (id v) (title v) (description v) (hashtags v)
                 (streamtape_url v) (streamtape_id v) (banner_path v)
                 (created_at v) u).
Proof. intros <-. apply flush_dirty_find. Qed.


(** ** Validation *)

Lemma validate_form_input_run title url :
  validate_form_input title url
  = if bool_decide (Py.strip title = "") then
      Raise (HTTPException 400 "Title is required")
    else if bool_decide (255 < String.length (Py.strip title))%nat then
      Raise (HTTPException 400 "Title too long (max 255 characters)")
    else if bool_decide (url = "")
            || negb (Py.contains "streamtape.com" url) then
      Raise (HTTPException 400 "Invalid Streamtape URL - must contain 'streamtape.com'")
    else Ok tt.
Proof.
  unfold validate_form_input.
  assert (negb (Py.truthy title) || (String.length (Py.strip title) =? 0)%nat
          = bool_decide (Py.strip title = "")) as ->.
  { destruct title as [|c title]; [done|]. simpl negb. rewrite orb_false_l.
    destruct (Py.strip (String c title)) eqn:Hs; by simpl. }
  assert ((255 <? String.length (Py.strip title))%nat
          = bool_decide (255 < String.length (Py.strip title))%nat) as ->.
  { case_bool_decide; [by apply Nat.ltb_lt|by apply Nat.ltb_ge; lia]. }
  assert (negb (Py.truthy url) = bool_decide (url = "")) as ->.
  { by destruct url. }
  done.
Qed.

Lemma validate_form_input_raise title url e :
  validate_form_input title url = Raise e → ∃ d, e = HTTPException 400 d.
Proof.
  rewrite validate_form_input_run.
  repeat case_match; intros [= <-]; eauto.
Qed.

Lemma validate_form_input_ok title url :
  validate_form_input title url = Ok tt →
  Py.strip title ≠ "" ∧ (String.length (Py.strip title) ≤ 255)%nat
  ∧ url ≠ "" ∧ Py.contains "streamtape.com" url = true.
Proof.
  rewrite validate_form_input_run.
  repeat case_bool_decide; simpl; try done.
  destruct (Py.contains _ url); simpl; [|done]. intros _. split_and!; [done|lia|done..].
Qed.

(** ** The handlers, step by step *)

Lemma banner_file_path_truthy env file : Py.truthy (banner_file_path env file) = true.
Proof. reflexivity. Qed.

Lemma stored_lookup env file w :
  files (stored env file w) !! banner_file_path env file = Some (content file).
Proof. apply lookup_insert_eq. Qed.

Lemma upload_precheck_raise file e :
  upload_precheck file = Raise e → ∃ d, e = HTTPException 400 d.
Proof. unfold upload_precheck. repeat case_match; intros [= <-]; eauto. Qed.

Lemma upload_video_run env title de ha url banner w :
  upload_video env title de ha url banner w
  = match validate_form_input title url with
    | Raise e => (Raise e, w, [])
    | Ok _ =>
        match upload_precheck banner with
        | Raise e => (Raise e, w, [])
        | Ok _ =>
            let p := banner_file_path env banner in
            match write_error env with
            | Some msg =>
                (Raise (HTTPException 500 ("Failed to save file: " +:+ msg)),
                 write_failed env banner w, [EvWriteFailed p])
            | None =>
                match commit_error env with
                | None =>
                    let rows :=
                      flush env
                        (Added (Py.strip title) (strip_or_none de) (strip_or_none ha)
                               (Py.strip url) (extract_streamtape_id url) p)
                        (videos w) in
                    match refresh_error env with
                    | None =>
                        (Ok (RedirectResponse "/admin" 303),
                         mkWorld (files (stored env banner w)) rows,
                         [EvWrite p; EvCommit])
                    | Some msg =>
                        (Raise (HTTPException 500 ("Failed to upload video: " +:+ msg)),
                         match remove_error env with
                         | None => mkWorld (delete p (files (stored env banner w))) rows
                         | Some _ => mkWorld (files (stored env banner w)) rows
                         end,
                         [EvWrite p; EvCommit;
                          match remove_error env with
                          | None => EvRemove p
                          | Some _ => EvRemoveFailed p
                          end])
                    end
                | Some msg =>
                    (Raise (HTTPException 500 ("Failed to upload video: " +:+ msg)),
                     match remove_error env with
                     | None => mkWorld (delete p (files (stored env banner w))) (videos w)
                     | Some _ => stored env banner w
                     end,
                     [EvWrite p; EvCommitFailed;
                      match remove_error env with
                      | None => EvRemove p
                      | Some _ => EvRemoveFailed p
                      end])
                end
            end
        end
    end.
Proof.
  unfold upload_video, bind, try_except, lift.
  destruct (validate_form_input title url) as [[]|e] eqn:Hv.
  2:{ apply validate_form_input_raise in Hv as [d ->]. reflexivity. }
  rewrite save_uploaded_file_run.
  destruct (upload_precheck banner) as [[]|e] eqn:Hp.
  2:{ apply upload_precheck_raise in Hp as [d ->]. reflexivity. }
  cbv zeta. destruct (write_error env) as [msg|]; [reflexivity|].
  unfold db_commit, db_refresh, ret. cbn [videos files].
  destruct (commit_error env) as [msg|].
  - unfold upload_cleanup, bind, raise. rewrite delete_file_safely_run.
    rewrite banner_file_path_truthy. cbn [andb files].
    unfold stored at 1. cbn [files]. rewrite lookup_insert_eq.
    rewrite bool_decide_eq_true_2 by eauto.
    by destruct (remove_error env).
  - destruct (refresh_error env) as [msg|]; [|reflexivity].
    unfold upload_cleanup, bind, raise. rewrite delete_file_safely_run.
    rewrite banner_file_path_truthy. cbn [andb files].
    rewrite lookup_insert_eq.
    rewrite bool_decide_eq_true_2 by eauto.
    by destruct (remove_error env).
Qed.

Lemma delete_video_run env video_id w :
  delete_video env video_id w
  = match List.find (has_id video_id) (videos w) with
    | None => (Raise (no_row "Failed to delete video: " video_id), w, [])
    | Some video =>
        let rm := delete_file_safely env (banner_path video) w in
        committed env "Failed to delete video: " (Deleted video)
          (world_after rm) (trace rm)
    end.
Proof.
  unfold delete_video, try_except, bind, db_query_first, no_row. cbn [videos].
  destruct (List.find _ _) as [video|]; [|by destruct (in_int64 video_id)].
  cbv zeta. pose proof (delete_file_safely_ok env (banner_path video) w) as [Hok _].
  destruct (delete_file_safely env (banner_path video) w) as [[r w1] t1].
  unfold outcome, world_after, trace in *. simpl in Hok. subst r. simpl.
  unfold committed, db_commit, ret, reraise, raise.
  destruct (commit_error env) as [msg|]; simpl; by rewrite ?app_nil_r.
Qed.

Lemma update_video_run env video_id title de ha url banner w :
  update_video env video_id title de ha url banner w
  = match List.find (has_id video_id) (videos w) with
    | None => (Raise (no_row "Failed to update video: " video_id), w, [])
    | Some video =>
        match validate_form_input title url with
        | Raise e => (Raise e, w, [])
        | Ok _ =>
            let edited := set_basic_fields video title de ha url in
            match banner_supplied banner with
            | None => committed env "Failed to update video: " (Dirty edited) w []
            | Some f =>
                match upload_precheck f with
                | Raise e => (Raise e, w, [])
                | Ok _ =>
                    let p := banner_file_path env f in
                    match write_error env with
                    | Some msg =>
                        (Raise (HTTPException 500 ("Failed to save file: " +:+ msg)),
                         write_failed env f w, [EvWriteFailed p])
                    | None =>
                        let rm := old_banner_removed env (banner_path video) f w in
                        committed env "Failed to update video: "
                          (Dirty (set_banner_path edited p))
                          (world_after rm) (EvWrite p :: trace rm)
                    end
                end
            end
        end
    end.
Proof.
  unfold update_video, try_except, bind, db_query_first, lift, no_row. cbn [videos].
  destruct (List.find _ _) as [video|]; [|by destruct (in_int64 video_id)].
  destruct (validate_form_input title url) as [[]|e] eqn:Hv.
  2:{ apply validate_form_input_raise in Hv as [d ->]. reflexivity. }
  cbv zeta. destruct (banner_supplied banner) as [f|].
  2:{ unfold committed, db_commit, ret, reraise, raise.
      destruct (commit_error env); reflexivity. }
  rewrite save_uploaded_file_run.
  destruct (upload_precheck f) as [[]|e] eqn:Hp.
  2:{ apply upload_precheck_raise in Hp as [d ->]. reflexivity. }
  cbv zeta. destruct (write_error env) as [msg|]; [reflexivity|].
  fold (stored env f w). unfold old_banner_removed.
  cbn [banner_path set_basic_fields].
  case_bool_decide as Hne.
  - pose proof (delete_file_safely_ok env (banner_path video) (stored env f w)) as [Hok _].
    destruct (delete_file_safely env (banner_path video) (stored env f w)) as [[r w1] t1].
    unfold outcome, world_after, trace in *. simpl in Hok. subst r. simpl.
    unfold committed, db_commit, ret, reraise, raise.
    destruct (commit_error env) as [msg|]; simpl; by rewrite ?app_nil_r.
  - unfold committed, db_commit, ret, reraise, raise, world_after, trace. simpl.
    destruct (commit_error env) as [msg|]; reflexivity.
Qed.

Lemma delete_file_safely_trace env p w :
  trace (delete_file_safely env p w) = []
  ∨ trace (delete_file_safely env p w) = [EvRemove p]
  ∨ trace (delete_file_safely env p w) = [EvRemoveFailed p].
Proof.
  rewrite delete_file_safely_run. destruct (_ && _); [|by left].
  destruct (remove_error env); auto.
Qed.

Lemma delete_file_safely_keeps env p q w :
  p ≠ q →
  files (world_after (delete_file_safely env p w)) !! q = files w !! q.
Proof.
  intros Hne. rewrite delete_file_safely_run. destruct (_ && _); [|done].
  destruct (remove_error env); [done|]. by apply lookup_delete_ne.
Qed.

Lemma old_banner_removed_videos env old f w :
  videos (world_after (old_banner_removed env old f w)) = videos w.
Proof.
  unfold old_banner_removed. case_bool_decide; [|done].
  by destruct (delete_file_safely_ok env old (stored env f w)) as [_ ->].
Qed.

(** The new file is still there after the old one has been dealt with. *)
Lemma old_banner_removed_new_file env old f w :
  files (world_after (old_banner_removed env old f w)) !! banner_file_path env f
  = Some (content f).
Proof.
  unfold old_banner_removed. case_bool_decide as Hne.
  - rewrite delete_file_safely_keeps by done. apply stored_lookup.
  - apply stored_lookup.
Qed.

Lemma old_banner_removed_trace env old f w :
  trace (old_banner_removed env old f w) = []
  ∨ (trace (old_banner_removed env old f w) = [EvRemove old]
     ∧ old ≠ banner_file_path env f)
  ∨ trace (old_banner_removed env old f w) = [EvRemoveFailed old].
Proof.
  unfold old_banner_removed. case_bool_decide as Hne; [|by left].
  destruct (delete_file_safely_trace env old (stored env f w)) as [->|[->| ->]]; auto.
Qed.

Lemma committed_outcome env prefix p w t :
  outcome (committed env prefix p w t)
  = match commit_error env with
    | None => Ok (RedirectResponse "/admin" 303)
    | Some msg => Raise (HTTPException 500 (prefix +:+ msg))
    end.
Proof. unfold committed. by destruct (commit_error env). Qed.

Lemma committed_files env prefix p w t :
  files (world_after (committed env prefix p w t)) = files w.
Proof. unfold committed. by destruct (commit_error env). Qed.

Lemma committed_videos env prefix p w t :
  videos (world_after (committed env prefix p w t))
  = match commit_error env with
    | None => flush env p (videos w)
    | Some _ => videos w
    end.
Proof. unfold committed. by destruct (commit_error env). Qed.

Lemma committed_trace env prefix p w t :
  trace (committed env prefix p w t)
  = t ++ [match commit_error env with None => EvCommit | Some _ => EvCommitFailed end].
Proof. unfold committed. by destruct (commit_error env). Qed.

(** After the last step of an update, the row under the key is the
    stored one or the edited one; only [updated_at] is the store's. *)
Lemma committed_dirty_find env prefix v w t old :
  List.find (has_id (id v)) (videos w) = Some old →
  ∃ v', List.find (has_id (id v))
          (videos (world_after (committed env prefix (Dirty v) w t))) = Some v'
        ∧ (v' = old
           ∨ commit_error env = None
             ∧ ∃ u, v' = mkVideo (id v) (title v) (description v) (hashtags v)
                           (streamtape_url v) (streamtape_id v) (banner_path v)
                           (created_at v) u).
Proof.
  intros Hold. rewrite committed_videos. destruct (commit_error env) as [msg|].
  - exists old. auto.
  - destruct (flush_dirty_find env v _ _ Hold) as [u Hu]. eauto 10.
Qed.

(** ** The handlers on examples *)

Example upload_example :
  let run := upload_video sample_env " Intro " (Some " first ") (Some "")
               "https://streamtape.com/e/ABC123/" sample_image (mkWorld ∅ []) in
  outcome run = Ok (RedirectResponse "/admin" 303)
  ∧ videos (world_after run)
    = [mkVideo 1 "Intro" (Some "first") None "https://streamtape.com/e/ABC123/"
         "ABC123" "static/banners/3f2b.png" 1700000000 1700000000]
  ∧ files (world_after run) !! "static/banners/3f2b.png" = Some "new image"
  ∧ trace run = [EvWrite "static/banners/3f2b.png"; EvCommit].
Proof. split_and!; vm_compute; reflexivity. Qed.

(** The sample world is what an upload into the empty world leaves. *)
Example sample_world_reached :
  world_after
    (upload_video (mkEnv "old" 1600000000 None None None) "Intro" (Some "first")
       (Some "a, b") "https://streamtape.com/e/ABC123/"
       (mkUploadFile (Some "photo.jpg") (Some "image/jpeg") "old image")
       (mkWorld ∅ []))
  = sample_world.
Proof. vm_compute; reflexivity. Qed.

Example upload_rejects_non_image :
  upload_video sample_env "Intro" None None "https://streamtape.com/e/ABC123/"
    (mkUploadFile (Some "notes.txt") (Some "text/plain") "notes") sample_world
  = (Raise (HTTPException 400 "Only image files are allowed"), sample_world, []).
Proof. reflexivity. Qed.

Example update_example :
  let run := update_video sample_env 1 "New title" None None
               "https://streamtape.com/e/XYZ/" (Some sample_image) sample_world in
  outcome run = Ok (RedirectResponse "/admin" 303)
  ∧ videos (world_after run)
    = [mkVideo 1 "New title" None None "https://streamtape.com/e/XYZ/" "XYZ"
         "static/banners/3f2b.png" 1600000000 1700000000]
  ∧ files (world_after run) !! "static/banners/old.jpg" = None
  ∧ files (world_after run) !! "static/banners/3f2b.png" = Some "new image".
Proof. split_and!; vm_compute; reflexivity. Qed.

Example delete_example :
  let run := delete_video sample_env 1 sample_world in
  outcome run = Ok (RedirectResponse "/admin" 303)
  ∧ videos (world_after run) = []
  ∧ files (world_after run) !! "static/banners/old.jpg" = None
  ∧ trace run = [EvRemove "static/banners/old.jpg"; EvCommit].
Proof. split_and!; vm_compute; reflexivity. Qed.

Example delete_missing_example :
  delete_video sample_env 7 sample_world
  = (Raise (HTTPException 404 "Video not found"), sample_world, []).
Proof. reflexivity. Qed.

(** An id outside the range of the store: the query raises and every
    handler answers with its 500 error. *)
Example beyond_range_example :
  delete_video sample_env (2 ^ 63) sample_world
  = (Raise (HTTPException 500
       "Failed to delete video: Python int too large to convert to SQLite INTEGER"),
     sample_world, [])
  ∧ update_video sample_env (2 ^ 63) "New title" None None
      "https://streamtape.com/e/XYZ/" None sample_world
    = (Raise (HTTPException 500
         "Failed to update video: Python int too large to convert to SQLite INTEGER"),
       sample_world, [])
  ∧ get_video_api (λ _, "t") (- 2 ^ 63 - 1) sample_world
    = (Raise (HTTPException 500
         "Database error: Python int too large to convert to SQLite INTEGER"),
       sample_world, [])
  ∧ delete_video sample_env (2 ^ 63 - 1) sample_world
    = (Raise (HTTPException 404 "Video not found"), sample_world, []).
Proof. split_and!; reflexivity. Qed.

(** An upload whose write fails once the file is open and empty: the
    file stays, and no clean-up runs, [file_path] not being assigned. *)
Example upload_write_failure_example :
  let env := mkEnvOf "3f2b" 1700000000 1700000001
               (Some "No space left on device") (Some 0%nat) None None None in
  let run := upload_video env "Intro" None None
               "https://streamtape.com/e/ABC123/" sample_image (mkWorld ∅ []) in
  outcome run
  = Raise (HTTPException 500 "Failed to save file: No space left on device")
  ∧ videos (world_after run) = []
  ∧ files (world_after run) !! "static/banners/3f2b.png" = Some ""
  ∧ trace run = [EvWriteFailed "static/banners/3f2b.png"].
Proof. split_and!; vm_compute; reflexivity. Qed.

(** An upload whose re-read fails after the commit: the answer is the
    500 error, the banner file is removed, and the row stays in the table
    and names the file that is gone. *)
Example upload_refresh_failure_example :
  let env := mkEnvOf "3f2b" 1700000000 1700000001
               None None None None (Some "connection lost") in
  let run := upload_video env "Intro" None None
               "https://streamtape.com/e/ABC123/" sample_image (mkWorld ∅ []) in
  outcome run = Raise (HTTPException 500 "Failed to upload video: connection lost")
  ∧ videos (world_after run)
    = [mkVideo 1 "Intro" None None "https://streamtape.com/e/ABC123/"
         "ABC123" "static/banners/3f2b.png" 1700000000 1700000001]
  ∧ files (world_after run) !! "static/banners/3f2b.png" = None
  ∧ trace run = [EvWrite "static/banners/3f2b.png"; EvCommit;
                 EvRemove "static/banners/3f2b.png"].
Proof. split_and!; vm_compute; reflexivity. Qed.

(** ** Update *)

Lemma no_removal_commit (e : event) :
  e = EvCommit ∨ e = EvCommitFailed → no_removal ([] ++ [e]).
Proof.
  intros He p. simpl. rewrite !list_elem_of_singleton.
  destruct He as [-> | ->]; done.
Qed.

(** C6: an update of an existing video without a new banner file leaves
    the row's [banner_path] as it was, leaves the file store as it was and
    calls no [os.remove]; and every update leaves the row's [id] and
    [created_at] as they were. *)
Theorem update_video_frame env video_id title de ha url banner w v :
  List.find (has_id video_id) (videos w) = Some v →
  let run := update_video env video_id title de ha url banner w in
  (∃ v', List.find (has_id video_id) (videos (world_after run)) = Some v'
         ∧ id v' = id v ∧ created_at v' = created_at v
         ∧ match banner_supplied banner with
           | None => banner_path v' = banner_path v
           | Some _ => True
           end)
  ∧ match banner_supplied banner with
    | None => files (world_after run) = files w ∧ no_removal (trace run)
    | Some _ => True
    end.
Proof.
  intros Hv run. subst run. rewrite update_video_run, Hv.
  pose proof (find_has_id _ _ _ Hv) as Hid.
  assert (∃ v', List.find (has_id video_id) (videos w) = Some v'
                ∧ id v' = id v ∧ created_at v' = created_at v
                ∧ banner_path v' = banner_path v) as Hsame by eauto.
  assert (∀ t : list event, t = [] → no_removal t) as Hnil.
  { intros t -> p. split; apply not_elem_of_nil. }
  destruct (validate_form_input title url) as [[]|e].
  2:{ split; [|destruct (banner_supplied banner); auto].
      destruct Hsame as (v' & ? & ? & ? & ?). exists v'.
      by destruct (banner_supplied banner). }
  cbv zeta. destruct (banner_supplied banner) as [f|].
  - split; [|done].
    assert (∀ p w1 t, videos w1 = videos w →
      ∃ v', List.find (has_id video_id)
              (videos (world_after (committed env "Failed to update video: "
                 (Dirty (set_banner_path (set_basic_fields v title de ha url) p)) w1 t)))
            = Some v' ∧ id v' = id v ∧ created_at v' = created_at v ∧ True) as Hc.
    { intros p w1 t Hw1.
      destruct (committed_dirty_find env "Failed to update video: "
        (set_banner_path (set_basic_fields v title de ha url) p) w1 t v)
        as (v' & Hf & Hv').
      { simpl. rewrite Hw1. by rewrite Hid. }
      simpl in Hf. rewrite Hid in Hf. exists v'. split; [done|].
      destruct Hv' as [->|[_ [u ->]]]; done. }
    destruct (upload_precheck f) as [[]|e].
    2:{ destruct Hsame as (v' & ? & ? & ? & ?). by exists v'. }
    cbv zeta. destruct (write_error env) as [msg|].
    { destruct Hsame as (v' & ? & ? & ? & ?). exists v'.
      unfold world_after. cbn [fst snd]. by rewrite write_failed_videos. }
    apply Hc, old_banner_removed_videos.
  - destruct (committed_dirty_find env "Failed to update video: "
      (set_basic_fields v title de ha url) w [] v) as (v' & Hf & Hv').
    { simpl. by rewrite Hid. }
    simpl in Hf. rewrite Hid in Hf. split.
    + exists v'. split; [done|]. destruct Hv' as [->|[_ [u ->]]]; done.
    + rewrite committed_files, committed_trace. split; [done|].
      apply no_removal_commit. destruct (commit_error env); auto.
Qed.

(** The frame property, for an update of the sample video without a banner. *)
Lemma update_video_frame_witness :
  let run := update_video sample_env 1 " New title " None (Some "x, y")
               "https://streamtape.com/e/XYZ/" None sample_world in
  (∃ v', List.find (has_id 1) (videos (world_after run)) = Some v'
         ∧ id v' = id sample_video ∧ created_at v' = created_at sample_video
         ∧ banner_path v' = banner_path sample_video)
  ∧ files (world_after run) = files sample_world ∧ no_removal (trace run).
Proof.
  exact (update_video_frame sample_env 1 " New title " None (Some "x, y")
           "https://streamtape.com/e/XYZ/" None sample_world sample_video eq_refl).
Defined.

(** C7: when an update of an existing video supplies a new banner file
    and storing that file fails, the table is left as it was (the row with
    all its fields), every file other than the one being written is left
    as it was, and so is the existing banner, its path not being the
    freshly generated one; nothing is removed, no commit is attempted, and,
    the form being valid, the update fails with the error of the store.
    The failed write may leave a file under the new path. *)
Theorem update_video_store_failure
    env video_id title de ha url banner w v f e w1 t1 :
  List.find (has_id video_id) (videos w) = Some v →
  banner_supplied banner = Some f →
  save_uploaded_file env f w = (Raise e, w1, t1) →
  banner_path v ≠ banner_file_path env f →
  let run := update_video env video_id title de ha url banner w in
  videos (world_after run) = videos w
  ∧ List.find (has_id video_id) (videos (world_after run)) = Some v
  ∧ files (world_after run) !! banner_path v = files w !! banner_path v
  ∧ (∀ q, q ≠ banner_file_path env f →
          files (world_after run) !! q = files w !! q)
  ∧ no_removal (trace run)
  ∧ (EvCommit ∉ trace run) ∧ (EvCommitFailed ∉ trace run)
  ∧ match validate_form_input title url with
    | Ok _ => outcome run = Raise e
    | Raise invalid => outcome run = Raise invalid
    end.
Proof.
  intros Hv Hb Hsave Hfresh run. subst run.
  assert (∀ t : list event, t = [] ∨ (∃ p, t = [EvWriteFailed p]) →
            no_removal t ∧ (EvCommit ∉ t) ∧ (EvCommitFailed ∉ t)) as Htr.
  { intros t [->|[p ->]]; (split; [intros q; split|split]).
    all: rewrite ?list_elem_of_singleton; try apply not_elem_of_nil; done. }
  rewrite update_video_run, Hv, Hb.
  rewrite save_uploaded_file_run in Hsave.
  destruct (validate_form_input title url) as [[]|invalid].
  2:{ destruct (Htr []) as (? & ? & ?); [by left|].
      by unfold world_after, trace, outcome. }
  cbv zeta. destruct (upload_precheck f) as [[]|e'].
  2:{ injection Hsave as <- <- <-. destruct (Htr []) as (? & ? & ?); [by left|].
      by unfold world_after, trace, outcome. }
  cbv zeta in Hsave |- *. destruct (write_error env) as [msg|]; [|done].
  injection Hsave as <- <- <-.
  destruct (Htr [EvWriteFailed (banner_file_path env f)]) as (? & ? & ?); [eauto|].
  unfold world_after, trace, outcome. cbn [fst snd].
  rewrite write_failed_videos.
  split_and!; try done.
  - by apply write_failed_files.
  - intros q Hq. by apply write_failed_files.
Qed.

(** The failing store, for an update of the sample video on a disk that
    fills up once the new file has been opened and three characters of it
    written: the row and the old banner are as they were, and the new path
    holds what was written. *)
Lemma update_video_store_failure_witness :
  let env := mkEnvOf "3f2b" 1700000000 1700000001
               (Some "No space left on device") (Some 3%nat) None None None in
  let run := update_video env 1 "New title" None None
               "https://streamtape.com/e/XYZ/" (Some sample_image) sample_world in
  (videos (world_after run) = videos sample_world
   ∧ List.find (has_id 1) (videos (world_after run)) = Some sample_video
   ∧ files (world_after run) !! "static/banners/old.jpg"
     = files sample_world !! "static/banners/old.jpg"
   ∧ (∀ q, q ≠ "static/banners/3f2b.png" →
           files (world_after run) !! q = files sample_world !! q)
   ∧ no_removal (trace run)
   ∧ (EvCommit ∉ trace run) ∧ (EvCommitFailed ∉ trace run)
   ∧ outcome run
     = Raise (HTTPException 500 "Failed to save file: No space left on device"))
  ∧ files (world_after run) !! "static/banners/3f2b.png" = Some "new".
Proof.
  split; [|vm_compute; reflexivity].
  exact (update_video_store_failure
           (mkEnvOf "3f2b" 1700000000 1700000001
              (Some "No space left on device") (Some 3%nat) None None None)
           1 "New title" None None "https://streamtape.com/e/XYZ/"
           (Some sample_image) sample_world sample_video sample_image
           (HTTPException 500 "Failed to save file: No space left on device")
           (mkWorld (<["static/banners/3f2b.png" := "new"]> (files sample_world))
                    (videos sample_world))
           [EvWriteFailed "static/banners/3f2b.png"]
           eq_refl eq_refl eq_refl ltac:(vm_compute; discriminate)).
Defined.

(** C1 (as the code has it): in an update of an existing video that
    supplies a new banner file, the only file ever removed is the old
    banner, only when its path differs from the new one, after the new file
    has been written and before the commit is attempted. *)
Theorem update_video_removal_order env video_id title de ha url banner w v f :
  List.find (has_id video_id) (videos w) = Some v →
  banner_supplied banner = Some f →
  let run := update_video env video_id title de ha url banner w in
  let new := banner_file_path env f in
  (∀ p, EvRemove p ∈ trace run → p = banner_path v ∧ p ≠ new)
  ∧ removed_after_write_before_commit (banner_path v) new (trace run).
Proof.
  intros Hv Hb run new. subst run new.
  rewrite update_video_run, Hv, Hb.
  assert (∀ t : list event, t = [] ∨ (∃ p, t = [EvWriteFailed p]) →
    (∀ p, EvRemove p ∈ t → p = banner_path v ∧ p ≠ banner_file_path env f)
    ∧ removed_after_write_before_commit (banner_path v) (banner_file_path env f) t)
    as Hquiet.
  { intros t [->|[q ->]]; split.
    - intros p Hp. by apply not_elem_of_nil in Hp.
    - intros i Hi. by simpl in Hi.
    - intros p Hp. by apply list_elem_of_singleton in Hp.
    - intros [|i] Hi; by simpl in Hi. }
  destruct (validate_form_input title url) as [[]|invalid]; [|apply Hquiet; auto].
  cbv zeta. destruct (upload_precheck f) as [[]|e']; [|apply Hquiet; auto].
  cbv zeta. destruct (write_error env) as [msg|]; [apply Hquiet; eauto|].
  rewrite committed_trace.
  set (c := match commit_error env with None => EvCommit | Some _ => EvCommitFailed end).
  assert (c ≠ EvRemove (banner_path v)) as Hc by (subst c; by destruct (commit_error env)).
  assert (∀ p, c ≠ EvRemove p) as Hc' by (intros p; subst c; by destruct (commit_error env)).
  destruct (old_banner_removed_trace env (banner_path v) f w) as [->|[[-> Hne]| ->]].
  - split.
    + intros p. simpl. rewrite !elem_of_cons, elem_of_nil. intros [?|[?|[]]]; [done|].
      by destruct (Hc' p).
    + intros [|[|i]] Hi; by simplify_eq/=.
  - split.
    + intros p. simpl. rewrite !elem_of_cons, elem_of_nil. intros [?|[?|[?|[]]]]; simplify_eq; [done|].
      by destruct (Hc' p).
    + intros [|[|[|i]]] Hi; simplify_eq/=.
      split; [exists 0%nat; split; [lia|done]|].
      intros [|j] Hj; [done|lia].
  - split.
    + intros p. simpl. rewrite !elem_of_cons, elem_of_nil. intros [?|[?|[?|[]]]]; simplify_eq.
      by destruct (Hc' p).
    + intros [|[|[|i]]] Hi; by simplify_eq/=.
Qed.

(** The order of the removal, on the sample world. *)
Lemma update_video_removal_order_witness :
  let run := update_video sample_env 1 "New title" None None
               "https://streamtape.com/e/XYZ/" (Some sample_image) sample_world in
  (∀ p, EvRemove p ∈ trace run →
        p = "static/banners/old.jpg" ∧ p ≠ "static/banners/3f2b.png")
  ∧ removed_after_write_before_commit
      "static/banners/old.jpg" "static/banners/3f2b.png" (trace run).
Proof.
  exact (update_video_removal_order sample_env 1 "New title" None None
           "https://streamtape.com/e/XYZ/" (Some sample_image) sample_world
           sample_video sample_image eq_refl eq_refl).
Defined.

(** C1 (as the claim states it) fails: the old banner is removed before
    the commit, also in a run in which every step succeeds; and when the
    commit then fails, the stored row still names the file that is gone. *)
Lemma update_video_removes_before_commit :
  let run := update_video sample_env 1 "New title" None None
               "https://streamtape.com/e/XYZ/" (Some sample_image) sample_world in
  let failing := mkEnv "3f2b" 1700000000 None None (Some "database is locked") in
  let failed := update_video failing 1 "New title" None None
                  "https://streamtape.com/e/XYZ/" (Some sample_image) sample_world in
  trace run = [EvWrite "static/banners/3f2b.png";
               EvRemove "static/banners/old.jpg"; EvCommit]
  ∧ ¬ removed_only_after_commit "static/banners/old.jpg" (trace run)
  ∧ outcome failed
    = Raise (HTTPException 500 "Failed to update video: database is locked")
  ∧ trace failed = [EvWrite "static/banners/3f2b.png";
                    EvRemove "static/banners/old.jpg"; EvCommitFailed]
  ∧ ¬ removed_only_after_commit "static/banners/old.jpg" (trace failed)
  ∧ files (world_after failed) !! "static/banners/old.jpg" = None
  ∧ List.find (has_id 1) (videos (world_after failed)) = Some sample_video.
Proof.
  intros run failing failed.
  assert (trace run = [EvWrite "static/banners/3f2b.png";
                       EvRemove "static/banners/old.jpg"; EvCommit]) as Hrun
    by (vm_compute; reflexivity).
  assert (trace failed = [EvWrite "static/banners/3f2b.png";
                          EvRemove "static/banners/old.jpg"; EvCommitFailed]) as Hfailed
    by (vm_compute; reflexivity).
  split_and!.
  - exact Hrun.
  - rewrite Hrun. intros H. destruct (H 1%nat eq_refl) as (j & Hj & Hc).
    destruct j as [|j]; [discriminate Hc|lia].
  - vm_compute; reflexivity.
  - exact Hfailed.
  - rewrite Hfailed. intros H. destruct (H 1%nat eq_refl) as (j & Hj & Hc).
    destruct j as [|j]; [discriminate Hc|lia].
  - vm_compute; reflexivity.
  - vm_compute; reflexivity.
Qed.

(** ** Upload *)

(** C2 (as the code has it): when the banner file has been written and the
    commit of the new row then fails, the upload fails with a 500 error,
    no row is added, and the compensating [delete_file_safely] runs on the
    written path before the error is surfaced; the file is gone when that
    removal succeeds and stays when the removal itself fails. *)
Theorem upload_video_compensation env title de ha url banner w p w1 t1 msg :
  validate_form_input title url = Ok tt →
  save_uploaded_file env banner w = (Ok p, w1, t1) →
  commit_error env = Some msg →
  let run := upload_video env title de ha url banner w in
  outcome run = Raise (HTTPException 500 ("Failed to upload video: " +:+ msg))
  ∧ videos (world_after run) = videos w
  ∧ match remove_error env with
    | None =>
        trace run = [EvWrite p; EvCommitFailed; EvRemove p]
        ∧ files (world_after run) !! p = None
    | Some _ =>
        trace run = [EvWrite p; EvCommitFailed; EvRemoveFailed p]
        ∧ files (world_after run) !! p = Some (content banner)
    end.
Proof.
  intros Hv Hsave Hc run. subst run.
  rewrite upload_video_run, Hv, Hc. rewrite save_uploaded_file_run in Hsave.
  destruct (upload_precheck banner) as [[]|e]; [|done].
  cbv zeta in Hsave |- *. destruct (write_error env); [done|].
  injection Hsave as <- <- <-.
  unfold outcome, world_after, trace. cbn [fst snd].
  destruct (remove_error env).
  - split_and!; [done..|]. apply stored_lookup.
  - split_and!; [done..|]. cbn [files]. apply lookup_delete_eq.
Qed.

(** The compensation, on an upload into the empty world whose commit fails. *)
Lemma upload_video_compensation_witness :
  let env := mkEnv "3f2b" 1700000000 None None (Some "database is locked") in
  let run := upload_video env "Intro" None None
               "https://streamtape.com/e/ABC123/" sample_image (mkWorld ∅ []) in
  outcome run
  = Raise (HTTPException 500 "Failed to upload video: database is locked")
  ∧ videos (world_after run) = []
  ∧ trace run = [EvWrite "static/banners/3f2b.png"; EvCommitFailed;
                 EvRemove "static/banners/3f2b.png"]
  ∧ files (world_after run) !! "static/banners/3f2b.png" = None.
Proof.
  exact (upload_video_compensation
           (mkEnv "3f2b" 1700000000 None None (Some "database is locked"))
           "Intro" None None "https://streamtape.com/e/ABC123/" sample_image
           (mkWorld ∅ []) "static/banners/3f2b.png"
           (mkWorld {["static/banners/3f2b.png" := "new image"]} [])
           [EvWrite "static/banners/3f2b.png"] "database is locked"
           eq_refl eq_refl eq_refl).
Defined.

(** C2 (as the claim states it) fails: when the removal of the written
    file fails too, the error is swallowed and the file stays on storage
    with no row that names it. *)
Lemma upload_video_orphan_remains :
  let env := mkEnv "3f2b" 1700000000 None (Some "Permission denied")
               (Some "database is locked") in
  let run := upload_video env "Intro" None None
               "https://streamtape.com/e/ABC123/" sample_image (mkWorld ∅ []) in
  outcome run
  = Raise (HTTPException 500 "Failed to upload video: database is locked")
  ∧ videos (world_after run) = []
  ∧ files (world_after run) !! "static/banners/3f2b.png" = Some "new image".
Proof. split_and!; vm_compute; reflexivity. Qed.

(** ** What a successful upload or update persists *)

(** C4 (as the code has it): the row a successful upload or update
    persists has the trimmed form title, which is not empty and at most 255
    characters long; its [streamtape_url] is the trimmed form URL and its
    [streamtape_id] is the extraction function applied to the form URL as
    submitted (so it is the extraction of the stored URL when the submitted
    URL has no surrounding whitespace); when the request stores a banner
    file, [banner_path] is the non-empty path of that file, which is on
    storage when the commit is made and afterwards; otherwise [banner_path]
    is the one the row had. *)
Theorem persisted_video_invariant env req w r :
  outcome (handle env req w) = Ok r →
  let w' := world_after (handle env req w) in
  ∃ v, List.find (has_id (target req w)) (videos w') = Some v
    ∧ title v = Py.strip (form_title req)
    ∧ title v ≠ ""
    ∧ (String.length (title v) ≤ 255)%nat
    ∧ streamtape_url v = Py.strip (form_url req)
    ∧ streamtape_id v = extract_streamtape_id (form_url req)
    ∧ (if bool_decide (Py.strip (form_url req) = form_url req)
       then streamtape_id v = extract_streamtape_id (streamtape_url v)
       else True)
    ∧ match new_banner req with
      | Some f =>
          banner_path v = banner_file_path env f
          ∧ banner_path v ≠ ""
          ∧ files w' !! banner_path v = Some (content f)
          ∧ ∃ before, trace (handle env req w)
                      = EvWrite (banner_path v) :: before ++ [EvCommit]
                      ∧ EvRemove (banner_path v) ∉ before
      | None =>
          ∃ old, List.find (has_id (target req w)) (videos w) = Some old
                 ∧ banner_path v = banner_path old
                 ∧ files w' = files w
      end.
Proof.
  destruct req as [ti de ha url banner|k ti de ha url banner]; simpl.
  - rewrite upload_video_run.
    destruct (validate_form_input ti url) as [[]|e] eqn:Hval; [|done].
    apply validate_form_input_ok in Hval as (Hti & Hlen & _ & _).
    destruct (upload_precheck banner) as [[]|e]; [|done].
    cbv zeta. destruct (write_error env); [done|].
    destruct (commit_error env); [done|].
    destruct (refresh_error env); [done|]. intros _.
    unfold world_after, trace. cbn [fst snd videos files].
    eexists. split; [apply flush_added_find|]. cbn.
    split_and!; try done.
    + case_bool_decide as Heq; [|done]. by rewrite Heq.
    + apply stored_lookup.
    + exists []. split; [done|]. apply not_elem_of_nil.
  - rewrite update_video_run.
    destruct (List.find (has_id k) (videos w)) as [old|] eqn:Hold; [|done].
    pose proof (find_has_id _ _ _ Hold) as Hid.
    destruct (validate_form_input ti url) as [[]|e] eqn:Hval; [|done].
    apply validate_form_input_ok in Hval as (Hti & Hlen & _ & _).
    cbv zeta. destruct (banner_supplied banner) as [f|].
    + destruct (upload_precheck f) as [[]|e]; [|done].
      cbv zeta. destruct (write_error env); [done|].
      rewrite committed_outcome, committed_videos, committed_files, committed_trace.
      destruct (commit_error env); [done|]. intros _.
      rewrite old_banner_removed_videos.
      destruct (flush_dirty_find_key env
        (set_banner_path (set_basic_fields old ti de ha url) (banner_file_path env f))
        (videos w) old k) as [u Hu]; [done..|].
      rewrite Hu.
      eexists. split; [done|]. cbn.
      split_and!; try done.
      * case_bool_decide as Heq; [|done]. by rewrite Heq.
      * apply old_banner_removed_new_file.
      * eexists. split; [done|].
        destruct (old_banner_removed_trace env (banner_path old) f w)
          as [->|[[-> Hne]| ->]].
        -- apply not_elem_of_nil.
        -- rewrite list_elem_of_singleton. intros [= ?]. congruence.
        -- by rewrite list_elem_of_singleton.
    + rewrite committed_outcome, committed_videos, committed_files.
      destruct (commit_error env); [done|]. intros _.
      destruct (flush_dirty_find_key env (set_basic_fields old ti de ha url)
        (videos w) old k) as [u Hu]; [done..|].
      rewrite Hu.
      eexists. split; [done|]. cbn.
      split_and!; try done.
      * case_bool_decide as Heq; [|done]. by rewrite Heq.
      * by exists old.
Qed.

(** The persisted row, for an update of the sample video with a new banner. *)
Lemma persisted_video_invariant_witness :
  let req := Update 1 " New title " None (Some "x, y")
               "https://streamtape.com/e/XYZ/" (Some sample_image) in
  let w' := world_after (handle sample_env req sample_world) in
  ∃ v, List.find (has_id 1) (videos w') = Some v
    ∧ title v = "New title"
    ∧ title v ≠ ""
    ∧ (String.length (title v) ≤ 255)%nat
    ∧ streamtape_url v = "https://streamtape.com/e/XYZ/"
    ∧ streamtape_id v = "XYZ"
    ∧ streamtape_id v = extract_streamtape_id (streamtape_url v)
    ∧ banner_path v = "static/banners/3f2b.png"
    ∧ banner_path v ≠ ""
    ∧ files w' !! banner_path v = Some "new image"
    ∧ ∃ before, trace (handle sample_env req sample_world)
                = EvWrite (banner_path v) :: before ++ [EvCommit]
                ∧ EvRemove (banner_path v) ∉ before.
Proof.
  exact (persisted_video_invariant sample_env
           (Update 1 " New title " None (Some "x, y")
              "https://streamtape.com/e/XYZ/" (Some sample_image))
           sample_world (RedirectResponse "/admin" 303) eq_refl).
Defined.

(** C4 (as the claim states it) fails: a form URL that ends in [/] is
    accepted and persists an empty [streamtape_id]; a form URL with a
    trailing blank persists an id taken from the URL as submitted, which is
    not the extraction of the trimmed URL that is stored; and an update
    without a new file, made after an update whose commit failed, persists
    a row whose [banner_path] names a file that is not on storage. *)
Lemma persisted_video_counterexample :
  let run := upload_video sample_env "Intro" None None
               "https://streamtape.com/" sample_image (mkWorld ∅ []) in
  let run' := upload_video sample_env "Intro" None None
                "https://streamtape.com/e/ABC123 " sample_image (mkWorld ∅ []) in
  let failing := mkEnv "3f2b" 1700000000 None None (Some "database is locked") in
  let failed := update_video failing 1 "New title" None None
                  "https://streamtape.com/e/XYZ/" (Some sample_image) sample_world in
  let again := update_video sample_env 1 "New title" None None
                 "https://streamtape.com/e/XYZ/" None (world_after failed) in
  outcome run = Ok (RedirectResponse "/admin" 303)
  ∧ (∃ v, videos (world_after run) = [v] ∧ streamtape_id v = "")
  ∧ outcome run' = Ok (RedirectResponse "/admin" 303)
  ∧ (∃ v, videos (world_after run') = [v]
      ∧ streamtape_url v = "https://streamtape.com/e/ABC123"
      ∧ streamtape_id v = "ABC123 "
      ∧ extract_streamtape_id (streamtape_url v) = "ABC123"
      ∧ streamtape_id v ≠ extract_streamtape_id (streamtape_url v))
  ∧ outcome again = Ok (RedirectResponse "/admin" 303)
  ∧ trace again = [EvCommit]
  ∧ ∃ v, videos (world_after again) = [v]
      ∧ title v = "New title"
      ∧ banner_path v = "static/banners/old.jpg"
      ∧ files (world_after again) !! banner_path v = None.
Proof.
  split_and!.
  - vm_compute; reflexivity.
  - eexists. split; [vm_compute; reflexivity|reflexivity].
  - vm_compute; reflexivity.
  - eexists. split; [vm_compute; reflexivity|]. split_and!; [reflexivity..|].
    vm_compute. discriminate.
  - vm_compute; reflexivity.
  - vm_compute; reflexivity.
  - eexists. split; [vm_compute; reflexivity|]. split_and!; [reflexivity..|].
    vm_compute; reflexivity.
Qed.

(** ** Validation and upload *)

Lemma validate_form_input_cases ti url :
  (Py.strip ti = ""
   ∧ validate_form_input ti url = Raise (HTTPException 400 "Title is required"))
  ∨ (Py.strip ti ≠ "" ∧ (255 < String.length (Py.strip ti))%nat
     ∧ validate_form_input ti url
       = Raise (HTTPException 400 "Title too long (max 255 characters)"))
  ∨ (¬ title_rejected ti ∧ url_rejected url
     ∧ validate_form_input ti url
       = Raise (HTTPException 400
                  "Invalid Streamtape URL - must contain 'streamtape.com'"))
  ∨ (¬ title_rejected ti ∧ ¬ url_rejected url
     ∧ validate_form_input ti url = Ok tt).
Proof.
  rewrite validate_form_input_run. unfold title_rejected, url_rejected.
  case_bool_decide as Hs; [by left|].
  case_bool_decide as Hl; [right; by left|].
  assert (¬ (Py.strip ti = "" ∨ (255 < String.length (Py.strip ti))%nat)) as Ht
    by (by intros [?|?]).
  case_bool_decide as Hu; simpl.
  { right; right; left. auto. }
  destruct (Py.contains "streamtape.com" url) eqn:Hc; simpl.
  - right; right; right. split_and!; [done| |done]. by intros [?|?].
  - right; right; left. auto.
Qed.

(** C5 (as the code has it): validation fails with the title error exactly
    when the trimmed title is empty or longer than 255 characters; it fails
    with the URL error exactly when the title is accepted and the URL is
    empty or lacks ["streamtape.com"] (the title is checked first); it
    passes exactly when neither is rejected.  An upload that fails
    validation fails with that error and touches nothing; an upload that
    succeeds appends one row, whose title is the trimmed form title.  An
    upload that fails later leaves the table as it was, unless what fails
    is the re-read of the row after its commit: then the row is there. *)
Theorem validation_contract env ti de ha url banner w :
  ((∃ e, validate_form_input ti url = Raise e ∧ InvalidTitle e)
   ↔ title_rejected ti)
  ∧ ((∃ e, validate_form_input ti url = Raise e ∧ InvalidEmbedUrl e)
     ↔ ¬ title_rejected ti ∧ url_rejected url)
  ∧ (validate_form_input ti url = Ok tt
     ↔ ¬ title_rejected ti ∧ ¬ url_rejected url)
  ∧ let run := upload_video env ti de ha url banner w in
    match validate_form_input ti url with
    | Raise e => run = (Raise e, w, [])
    | Ok _ =>
        match outcome run with
        | Ok _ => ∃ v, videos (world_after run) = videos w ++ [v]
                       ∧ title v = Py.strip ti
        | Raise _ =>
            videos (world_after run) = videos w
            ∨ (commit_error env = None ∧ is_Some (refresh_error env)
               ∧ ∃ v, videos (world_after run) = videos w ++ [v]
                      ∧ title v = Py.strip ti)
        end
    end.
Proof.
  split_and!.
  - destruct (validate_form_input_cases ti url)
      as [[Hs ->]|[(Hs & Hl & ->)|[(Ht & Hu & ->)|(Ht & Hu & ->)]]].
    + split; [by left|]. intros _. eexists. split; [done|by left].
    + split; [by right|]. intros _. eexists. split; [done|by right].
    + split; [|done]. by intros (e & [= <-] & [?|?]).
    + split; [|done]. by intros (e & ? & _).
  - destruct (validate_form_input_cases ti url)
      as [[Hs ->]|[(Hs & Hl & ->)|[(Ht & Hu & ->)|(Ht & Hu & ->)]]].
    + split; [by intros (e & [= <-] & ?)|]. intros [Ht _]. destruct Ht. by left.
    + split; [by intros (e & [= <-] & ?)|]. intros [Ht _]. destruct Ht. by right.
    + split; [done|]. intros _. by eexists.
    + split; [by intros (e & ? & _)|]. by intros [_ ?].
  - destruct (validate_form_input_cases ti url)
      as [[Hs ->]|[(Hs & Hl & ->)|[(Ht & Hu & ->)|(Ht & Hu & ->)]]].
    + split; [done|]. intros [Ht _]. destruct Ht. by left.
    + split; [done|]. intros [Ht _]. destruct Ht. by right.
    + split; [done|]. by intros [_ ?].
    + done.
  - intros run. subst run. rewrite upload_video_run.
    destruct (validate_form_input ti url) as [[]|e]; [|done].
    destruct (upload_precheck banner) as [[]|e]; [|by left].
    cbv zeta. destruct (write_error env).
    { unfold outcome, world_after. cbn [fst snd]. left. apply write_failed_videos. }
    destruct (commit_error env).
    + unfold outcome, world_after. cbn [fst snd]. left. by destruct (remove_error env).
    + destruct (refresh_error env) eqn:Hre.
      * unfold outcome, world_after. cbn [fst snd]. right.
        split_and!; [done..|]. destruct (remove_error env); cbn [videos flush]; eauto.
      * unfold outcome, world_after. cbn [fst snd videos flush]. eauto.
Qed.

(** C5 (as the claim states it) fails: with an empty title and an empty
    URL the failure is the title error, although the URL is empty. *)
Lemma validation_url_error_masked :
  validate_form_input "" "" = Raise (HTTPException 400 "Title is required")
  ∧ url_rejected ""
  ∧ ¬ InvalidEmbedUrl (HTTPException 400 "Title is required")
  ∧ ¬ (∀ title url,
         (∃ e, validate_form_input title url = Raise e ∧ InvalidEmbedUrl e)
         ↔ url_rejected url).
Proof.
  split_and!.
  - reflexivity.
  - by left.
  - intros H. discriminate H.
  - intros H. destruct (proj2 (H "" "")) as (e & He & Hu); [by left|].
    injection He as <-. discriminate Hu.
Qed.

(** ** Delete *)



(** ** The embed URL *)

(** C10: the [embed_url] of a video, as the JSON endpoint returns it, is
    ["https://streamtape.com/e/"], the stored [streamtape_id] and ["/"]; it
    does not depend on the stored [streamtape_url], and for a row uploaded
    with a URL that is not of the [/e/] form it differs from that URL. *)
Theorem embed_url_derived (isoformat : Z → string) video_id w v :
  List.find (has_id video_id) (videos w) = Some v →
  embed_url v = "https://streamtape.com/e/" +:+ streamtape_id v +:+ "/"
  ∧ (∃ d, get_video_api isoformat video_id w
          = (Ok (JDict [("status", JStr "success"); ("video", JDict d)]), w, [])
          ∧ json_get "embed_url" d
            = Some (JStr ("https://streamtape.com/e/" +:+ streamtape_id v +:+ "/"))
          ∧ json_get "streamtape_id" d = Some (JStr (streamtape_id v))
          ∧ json_get "streamtape_url" d = Some (JStr (streamtape_url v)))
  ∧ (∀ url, embed_url (set_streamtape_url v url) = embed_url v)
  ∧ let run := upload_video sample_env "Intro" None None
                 "https://streamtape.com/ABC123" sample_image (mkWorld ∅ []) in
    ∃ u, videos (world_after run) = [u]
         ∧ streamtape_url u = "https://streamtape.com/ABC123"
         ∧ embed_url u = "https://streamtape.com/e/ABC123/"
         ∧ embed_url u ≠ streamtape_url u.
Proof.
  intros Hv. split_and!.
  - reflexivity.
  - unfold get_video_api, try_except, bind, db_query_first. rewrite Hv.
    eexists. split; [reflexivity|]. split_and!; reflexivity.
  - reflexivity.
  - eexists. split; [vm_compute; reflexivity|]. split_and!; [reflexivity..|].
    vm_compute. discriminate.
Qed.

(** The embed URL of the sample video, as the endpoint returns it. *)
Lemma embed_url_derived_witness :
  embed_url sample_video = "https://streamtape.com/e/ABC123/"
  ∧ ∃ d, get_video_api (λ _, "2020-09-13T12:26:40") 1 sample_world
         = (Ok (JDict [("status", JStr "success"); ("video", JDict d)]),
            sample_world, [])
         ∧ json_get "embed_url" d = Some (JStr "https://streamtape.com/e/ABC123/").
Proof.
  destruct (embed_url_derived (λ _, "2020-09-13T12:26:40") 1 sample_world
              sample_video eq_refl) as (H1 & (d & H2 & H3 & _) & _).
  split; [exact H1|]. exists d. split; [exact H2|exact H3].
Defined.

(** * Further properties of the handlers *)

(** ** What a request does to the table *)

Lemma ids_row_update env v rows :
  ids (List.map (row_update env v) rows) = ids rows.
Proof.
  unfold ids. induction rows as [|r rows IH]; [done|]. simpl. rewrite IH.
  f_equal. unfold row_update. destruct (has_id (id v) r) eqn:Hr; [|done].
  simpl. symmetry. by apply has_id_true.
Qed.

Lemma ids_flush_dirty env v rows : ids (flush env (Dirty v) rows) = ids rows.
Proof. simpl. case_bool_decide; [done|]. apply ids_row_update. Qed.

Lemma ids_flush_added env ti de ha url sid bp rows :
  ids (flush env (Added ti de ha url sid bp) rows) = ids rows ++ [next_id rows].
Proof. unfold ids. simpl. by rewrite map_app. Qed.

Lemma next_id_not_in rows : next_id rows ∉ ids rows.
Proof.
  unfold ids. intros Hin. apply list_elem_of_In, in_map_iff in Hin as (v & Hid & Hv).
  apply list_elem_of_In, next_id_above in Hv. lia.
Qed.

Lemma filter_other_id k (rows : list Video) r :
  id r ≠ k →
  List.find (has_id (id r)) (List.filter (λ x, negb (has_id k x)) rows)
  = List.find (has_id (id r)) rows.
Proof.
  intros Hne. induction rows as [|x rows IH]; [done|]. simpl.
  destruct (has_id k x) eqn:Hk; simpl.
  - apply has_id_true in Hk. rewrite IH.
    destruct (has_id (id r) x) eqn:Hx; [|done].
    apply has_id_true in Hx. congruence.
  - by rewrite IH.
Qed.

Lemma map_other_id env v (rows : list Video) k :
  k ≠ id v →
  List.find (has_id k) (List.map (row_update env v) rows)
  = List.find (has_id k) rows.
Proof.
  intros Hne. induction rows as [|x rows IH]; [done|]. simpl.
  destruct (has_id (id v) x) eqn:Hx.
  - assert (row_update env v x
            = mkVideo (id v) (title v) (description v) (hashtags v)
                (streamtape_url v) (streamtape_id v) (banner_path v) (created_at v)
                (utcnow env)) as -> by (unfold row_update; by rewrite Hx).
    apply has_id_true in Hx.
    assert (has_id k x = false) as ->
      by (apply not_true_is_false; rewrite has_id_true; congruence).
    assert (has_id k (mkVideo (id v) (title v) (description v) (hashtags v)
              (streamtape_url v) (streamtape_id v) (banner_path v) (created_at v)
              (utcnow env)) = false) as ->; [|done].
    apply not_true_is_false. rewrite has_id_true. simpl. congruence.
  - assert (row_update env v x = x) as -> by (unfold row_update; by rewrite Hx).
    by rewrite IH.
Qed.

(** What the three handlers do to the table: a request that answers with
    the redirect has flushed its one pending change, a request that fails
    has raised an [HTTPException] and left the table as it was; but for
    the upload whose re-read fails, which has flushed its row and answers
    with the 500 error. *)
Lemma upload_video_table env ti de ha url banner w :
  let run := upload_video env ti de ha url banner w in
  let rows := flush env (Added (Py.strip ti) (strip_or_none de) (strip_or_none ha)
                           (Py.strip url) (extract_streamtape_id url)
                           (banner_file_path env banner)) (videos w) in
  (outcome run = Ok (RedirectResponse "/admin" 303)
   ∧ videos (world_after run) = rows)
  ∨ (∃ c d, outcome run = Raise (HTTPException c d) ∧ (c = 400 ∨ c = 500)
            ∧ videos (world_after run) = videos w)
  ∨ (∃ d, outcome run = Raise (HTTPException 500 d)
          ∧ commit_error env = None ∧ is_Some (refresh_error env)
          ∧ videos (world_after run) = rows).
Proof.
  intros run rows. subst run rows. rewrite upload_video_run.
  destruct (validate_form_input ti url) as [[]|e] eqn:Hv.
  2:{ apply validate_form_input_raise in Hv as [d ->]. right. left. eauto 10. }
  destruct (upload_precheck banner) as [[]|e] eqn:Hp.
  2:{ apply upload_precheck_raise in Hp as [d ->]. right. left. eauto 10. }
  cbv zeta. destruct (write_error env).
  { right. left. do 2 eexists. split; [done|]. split; [by right|].
    apply write_failed_videos. }
  destruct (commit_error env).
  { right. left. do 2 eexists. split; [done|]. split; [by right|].
    by destruct (remove_error env). }
  destruct (refresh_error env); [|left; done].
  right. right. eexists. split_and!; [done..|].
  by destruct (remove_error env).
Qed.

Lemma update_video_table env k ti de ha url banner w :
  let run := update_video env k ti de ha url banner w in
  (∃ v p, List.find (has_id k) (videos w) = Some v
          ∧ outcome run = Ok (RedirectResponse "/admin" 303)
          ∧ videos (world_after run)
            = flush env (Dirty (set_banner_path (set_basic_fields v ti de ha url) p))
                (videos w)
          ∧ match banner_supplied banner with
            | Some f => p = banner_file_path env f
            | None => p = banner_path v
            end)
  ∨ (∃ c d, outcome run = Raise (HTTPException c d)
            ∧ (c = 400 ∨ c = 404 ∨ c = 500)
            ∧ (c = 404 ↔ List.find (has_id k) (videos w) = None
                         ∧ in_int64 k = true)
            ∧ videos (world_after run) = videos w).
Proof.
  intros run. subst run. rewrite update_video_run.
  destruct (List.find (has_id k) (videos w)) as [v|] eqn:Hfind.
  2:{ right. unfold no_row. destruct (in_int64 k).
      - exists 404, "Video not found". split_and!; auto. done.
      - eexists 500, _. split_and!; auto. split; [done|]. by intros [_ ?]. }
  assert (∀ c : Z, c = 400 ∨ c = 500 →
            c = 404 ↔ Some v = None ∧ in_int64 k = true) as Hno.
  { intros c [-> | ->]; split; [done|by intros [? _]|done|by intros [? _]]. }
  destruct (validate_form_input ti url) as [[]|e] eqn:Hv.
  2:{ apply validate_form_input_raise in Hv as [d ->]. right.
      exists 400, d. split_and!; auto. }
  cbv zeta. destruct (banner_supplied banner) as [f|].
  - destruct (upload_precheck f) as [[]|e] eqn:Hp.
    2:{ apply upload_precheck_raise in Hp as [d ->]. right.
        exists 400, d. split_and!; auto. }
    cbv zeta. destruct (write_error env) as [msg|].
    { right. eexists 500, _. split_and!; auto. apply write_failed_videos. }
    rewrite committed_outcome, committed_videos, old_banner_removed_videos.
    destruct (commit_error env) as [msg|].
    + right. eexists 500, _. split_and!; auto.
    + left. by exists v, (banner_file_path env f).
  - rewrite committed_outcome, committed_videos.
    destruct (commit_error env) as [msg|].
    + right. eexists 500, _. split_and!; auto.
    + left. exists v, (banner_path v). by split_and!.
Qed.

Lemma delete_video_table env k w :
  let run := delete_video env k w in
  (∃ v, List.find (has_id k) (videos w) = Some v
        ∧ outcome run = Ok (RedirectResponse "/admin" 303)
        ∧ videos (world_after run) = flush env (Deleted v) (videos w))
  ∨ (∃ c d, outcome run = Raise (HTTPException c d)
            ∧ (c = 404 ∨ c = 500)
            ∧ (c = 404 ↔ List.find (has_id k) (videos w) = None
                         ∧ in_int64 k = true)
            ∧ videos (world_after run) = videos w).
Proof.
  intros run. subst run. rewrite delete_video_run.
  destruct (List.find (has_id k) (videos w)) as [v|] eqn:Hfind.
  2:{ right. unfold no_row. destruct (in_int64 k).
      - exists 404, "Video not found". split_and!; auto. done.
      - eexists 500, _. split_and!; auto. split; [done|]. by intros [_ ?]. }
  cbv zeta. rewrite committed_outcome, committed_videos.
  destruct (delete_file_safely_ok env (banner_path v) w) as [_ ->].
  destruct (commit_error env) as [msg|].
  - right. eexists 500, _. split_and!; auto. split; [done|by intros [? _]].
  - left. by exists v.
Qed.

Lemma find_filter_other k k' (rows : list Video) :
  k' ≠ k →
  List.find (has_id k') (List.filter (λ x, negb (has_id k x)) rows)
  = List.find (has_id k') rows.
Proof.
  intros Hne. induction rows as [|x rows IH]; [done|]. simpl.
  destruct (has_id k x) eqn:Hk; simpl.
  - apply has_id_true in Hk. rewrite IH.
    destruct (has_id k' x) eqn:Hx; [|done].
    apply has_id_true in Hx. congruence.
  - by rewrite IH.
Qed.

Lemma find_app_Some {A} (f : A → bool) l1 l2 x :
  List.find f l1 = Some x → List.find f (l1 ++ l2) = Some x.
Proof.
  induction l1 as [|y l1 IH]; simpl; [done|]. destruct (f y); [done|]. apply IH.
Qed.

Lemma ids_filter_NoDup (f : Video → bool) rows :
  NoDup (ids rows) → NoDup (ids (List.filter f rows)).
Proof.
  unfold ids. induction rows as [|x rows IH]; simpl; [done|].
  rewrite NoDup_cons. intros [Hx Hnd]. destruct (f x); simpl; [|by apply IH].
  apply NoDup_cons. split; [|by apply IH].
  intros Hin. apply Hx.
  apply list_elem_of_In, in_map_iff in Hin as (y & Hy & Hin).
  apply filter_In in Hin as [Hin _].
  apply list_elem_of_In, in_map_iff. eauto.
Qed.

(** The table after a request, whatever its outcome, is the table before
    or the flush of one pending change that belongs to the addressed key;
    the flush comes with the redirect, or with the error of an upload
    whose re-read failed. *)
Lemma admin_handle_table env req w :
  let run := admin_handle env req w in
  (∃ c d, outcome run = Raise (HTTPException c d)
          ∧ videos (world_after run) = videos w)
  ∨ ((outcome run = Ok (RedirectResponse "/admin" 303)
      ∨ (∃ d ti de ha url f, req = Write (Upload ti de ha url f)
           ∧ outcome run = Raise (HTTPException 500 d)
           ∧ commit_error env = None ∧ is_Some (refresh_error env)))
     ∧ ∃ p, videos (world_after run) = flush env p (videos w)
            ∧ match p with
              | Added _ _ _ _ _ _ => ∃ ti de ha url f, req = Write (Upload ti de ha url f)
              | Dirty v | Deleted v =>
                  id v = addressed req w
                  ∧ is_Some (List.find (has_id (id v)) (videos w))
              end).
Proof.
  destruct req as [[ti de ha url f|k ti de ha url f]|k]; simpl.
  - destruct (upload_video_table env ti de ha url f w)
      as [[Hok Hv]|[(c & d & Hr & _ & Hv)|(d & Hr & Hc & Hre & Hv)]].
    + right. split; [by left|]. eexists. split; [exact Hv|].
      by exists ti, de, ha, url, f.
    + left. eauto.
    + right. split; [right; eauto 10|]. eexists. split; [exact Hv|].
      by exists ti, de, ha, url, f.
  - destruct (update_video_table env k ti de ha url f w)
      as [(v & p & Hf & Hok & Hv & _)|(c & d & Hr & _ & _ & Hv)].
    + right. split; [by left|]. eexists. split; [exact Hv|].
      pose proof (find_has_id _ _ _ Hf) as Hid. simpl. rewrite Hid. eauto.
    + left. eauto.
  - destruct (delete_video_table env k w)
      as [(v & Hf & Hok & Hv)|(c & d & Hr & _ & _ & Hv)].
    + right. split; [by left|]. eexists. split; [exact Hv|].
      pose proof (find_has_id _ _ _ Hf) as Hid. simpl. rewrite Hid. eauto.
    + left. eauto.
Qed.

(** ** Invariants and frames of the admin routes *)

(** X1: no request makes two rows share an id: a table with distinct
    primary keys has distinct primary keys after any upload, update or
    delete, whatever the request's outcome. *)
Theorem ids_stay_unique env req w :
  NoDup (ids (videos w)) →
  NoDup (ids (videos (world_after (admin_handle env req w)))).
Proof.
  intros Hnd.
  destruct (admin_handle_table env req w) as [(c & d & _ & ->)|[_ (p & -> & Hp)]]; [done|].
  destruct p as [ti de ha url sid bp|v|v].
  - rewrite ids_flush_added. apply NoDup_app. split_and!; [done| |apply NoDup_singleton].
    intros x Hx ->%list_elem_of_singleton. by apply (next_id_not_in (videos w)).
  - by rewrite ids_flush_dirty.
  - by apply ids_filter_NoDup.
Qed.

(** The ids stay distinct over an upload and an update of the new row. *)
Lemma ids_stay_unique_witness :
  NoDup (ids (videos (world_after
    (admin_handle sample_env
       (Write (Upload "Second" None None "https://streamtape.com/e/DEF/" sample_image))
       sample_world)))).
Proof.
  apply (ids_stay_unique sample_env
           (Write (Upload "Second" None None "https://streamtape.com/e/DEF/" sample_image))
           sample_world).
  vm_compute. apply NoDup_singleton.
Defined.



(** X3: a request changes no row but the one it addresses: every row
    stored under another id is found unchanged afterwards. *)
Theorem other_rows_kept env req w k r :
  List.find (has_id k) (videos w) = Some r →
  k ≠ addressed req w →
  List.find (has_id k) (videos (world_after (admin_handle env req w))) = Some r.
Proof.
  intros Hr Hne.
  destruct (admin_handle_table env req w) as [(c & d & _ & ->)|[_ (p & -> & Hp)]]; [done|].
  destruct p as [ti de ha url sid bp|v|v]; simpl.
  - by apply find_app_Some.
  - destruct Hp as [Hid _]. case_bool_decide; [done|].
    rewrite map_other_id; [done|congruence].
  - destruct Hp as [Hid _]. rewrite find_filter_other; [done|congruence].
Qed.

(** ** More on strings: trimming and splitting *)

Section more_strings.
Implicit Types s t sep : string.

(** A string without the separator has no part that contains it. *)
Lemma cut_None_part sep a t b :
  Py.cut sep (a +:+ t +:+ b) = None → Py.cut sep t = None.
Proof.
  intros Hnone. destruct (Py.cut sep t) as [[x y]|] eqn:Hc; [|done].
  apply cut_Some in Hc. subst t.
  destruct (cut_app_intro sep (a +:+ x) (y +:+ b)) as [z Hz].
  rewrite !str_app_assoc in Hnone. rewrite !str_app_assoc in Hz. congruence.
Qed.

Lemma lstrip_suffix s : ∃ a, s = a +:+ Py.lstrip s.
Proof.
  induction s as [|c s [a IH]]; [by exists ""|]. simpl.
  destruct (Py.isspace c).
  - exists (String c a). by rewrite str_app_cons, <- IH.
  - by exists "".
Qed.

Lemma rstrip_prefix s : ∃ b, s = Py.rstrip s +:+ b.
Proof.
  induction s as [|c s [b IH]]; [by exists ""|]. simpl.
  destruct (Py.rstrip s) as [|d r] eqn:Hr.
  - destruct (Py.isspace c).
    + exists (String c s). by rewrite str_app_nil_l.
    + exists s. rewrite str_app_nil_l in IH. by rewrite str_app_cons, str_app_nil_l.
  - exists b. by rewrite str_app_cons, <- IH.
Qed.

Lemma strip_part s : ∃ a b, s = a +:+ Py.strip s +:+ b.
Proof.
  destruct (lstrip_suffix s) as [a Ha].
  destruct (rstrip_prefix (Py.lstrip s)) as [b Hb].
  exists a, b. unfold Py.strip. by rewrite <- Hb.
Qed.

Lemma rstrip_idem s : Py.rstrip (Py.rstrip s) = Py.rstrip s.
Proof.
  induction s as [|c s IH]; [done|]. simpl.
  destruct (Py.rstrip s) as [|d r] eqn:Hr.
  - destruct (Py.isspace c) eqn:Hc; [done|]. simpl. by rewrite Hc.
  - simpl in IH |- *. by rewrite IH.
Qed.

(** The head of a right-trimmed string is the head of the string. *)
Lemma lstrip_rstrip s : Py.lstrip s = s → Py.lstrip (Py.rstrip s) = Py.rstrip s.
Proof.
  destruct s as [|c s]; [done|]. simpl.
  destruct (Py.isspace c) eqn:Hc.
  - intros Hl. destruct (lstrip_suffix s) as [a Ha].
    apply (f_equal String.length) in Ha. rewrite Hl in Ha.
    rewrite str_length_app in Ha. simpl in Ha. lia.
  - intros _. destruct (Py.rstrip s); simpl; by rewrite Hc.
Qed.

Lemma lstrip_idem s : Py.lstrip (Py.lstrip s) = Py.lstrip s.
Proof.
  induction s as [|c s IH]; [done|]. simpl.
  destruct (Py.isspace c) eqn:Hc; [done|]. simpl. by rewrite Hc.
Qed.

Lemma strip_idem s : Py.strip (Py.strip s) = Py.strip s.
Proof.
  unfold Py.strip. rewrite lstrip_rstrip by apply lstrip_idem. apply rstrip_idem.
Qed.

(** Every piece of a split is free of the separator. *)
Lemma split_fuel_pieces sep s fuel :
  sep ≠ "" → (String.length s ≤ fuel)%nat →
  Forall (λ t, Py.cut sep t = None) (Py.split_fuel fuel sep s).
Proof.
  intros Hsep. revert s. induction fuel as [|fuel IH]; intros s Hlen.
  - assert (s = "") as -> by (apply str_length_zero; lia).
    constructor; [by apply cut_nil|constructor].
  - cbn [Py.split_fuel]. destruct (Py.cut sep s) as [[a b]|] eqn:Hc.
    + constructor; [by eapply cut_Some_before|].
      apply IH. pose proof (cut_length _ _ _ _ Hsep Hc). lia.
    + by constructor.
Qed.

(** The number of rounds does not matter once it is enough. *)
Lemma split_fuel_enough sep s f1 f2 :
  sep ≠ "" → (String.length s ≤ f1)%nat → (String.length s ≤ f2)%nat →
  Py.split_fuel f1 sep s = Py.split_fuel f2 sep s.
Proof.
  intros Hsep. revert s f2. induction f1 as [|f1 IH]; intros s f2 H1 H2.
  - assert (s = "") as -> by (apply str_length_zero; lia).
    destruct f2; cbn [Py.split_fuel]; [done|]. by rewrite cut_nil.
  - destruct f2 as [|f2].
    + assert (s = "") as -> by (apply str_length_zero; lia).
      cbn [Py.split_fuel]. by rewrite cut_nil.
    + cbn [Py.split_fuel]. destruct (Py.cut sep s) as [[a b]|] eqn:Hc; [|done].
      pose proof (cut_length _ _ _ _ Hsep Hc). f_equal. apply IH; lia.
Qed.

Lemma split_unfold sep s :
  sep ≠ "" →
  Py.split sep s
  = match Py.cut sep s with
    | None => [s]
    | Some (a, b) => a :: Py.split sep b
    end.
Proof.
  intros Hsep. destruct (Py.cut sep s) as [[a b]|] eqn:Hc.
  - unfold Py.split. pose proof (cut_length _ _ _ _ Hsep Hc) as Hlen.
    destruct (String.length s) as [|n] eqn:Hn; [lia|].
    cbn [Py.split_fuel]. rewrite Hc. f_equal. apply split_fuel_enough; [done|lia|lia].
  - by apply split_no_sep.
Qed.

(** With a separator of one character, the leftmost occurrence after a
    text that has none is right behind that text. *)
Lemma cut_char_app c t rest :
  Py.cut (String c "") t = None →
  Py.cut (String c "") (t +:+ String c rest) = Some (t, rest).
Proof.
  induction t as [|d t IH].
  - intros _. rewrite str_app_nil_l. simpl. by rewrite Ascii.eqb_refl.
  - rewrite str_app_cons. simpl. destruct (Ascii.eqb c d) eqn:Hcd; [done|].
    destruct (Py.cut (String c "") t) as [[x y]|]; [done|].
    intros _. by rewrite IH.
Qed.

Lemma cut_char_cons c d t :
  Py.cut (String c "") (String d t)
  = if Ascii.eqb c d then Some ("", t)
    else match Py.cut (String c "") t with
         | Some (a, b) => Some (String d a, b)
         | None => None
         end.
Proof. simpl. by destruct (Ascii.eqb c d). Qed.

End more_strings.

(** ** The hashtag list, entry by entry *)

Lemma comma_nonempty : "," ≠ "".
Proof. done. Qed.

Lemma strip_keeps_comma_free s :
  Py.cut "," s = None → Py.contains "," (Py.strip s) = false.
Proof.
  intros Hs. apply contains_false.
  destruct (strip_part s) as (a & b & Hab). rewrite Hab in Hs.
  by eapply cut_None_part.
Qed.

(** X4: every entry of a hashtag list is a clean tag: it is not empty,
    has no whitespace at either end and holds no comma. *)
Theorem hashtag_list_entries_clean (v : Video) :
  Forall clean_tag (hashtag_list v).
Proof.
  unfold hashtag_list. destruct (hashtags v) as [s|]; [|constructor].
  destruct (Py.truthy s); simpl; [|constructor].
  pose proof (split_fuel_pieces "," s (String.length s) comma_nonempty (le_n _)) as Hp.
  fold (Py.split "," s) in Hp.
  induction Hp as [|t l Ht _ IH]; simpl; [constructor|].
  destruct (Py.truthy (Py.strip t)) eqn:Htr; simpl; [|done].
  constructor; [|done]. split_and!.
  - by apply truthy_true.
  - apply strip_idem.
  - by apply strip_keeps_comma_free.
Qed.

(** The pieces of a [", "]-joined list of comma-free texts. *)
Lemma split_join_comma t (ts : list string) :
  Py.cut "," t = None →
  Forall (λ x, Py.cut "," x = None) ts →
  Py.split "," (Py.join ", " (t :: ts)) = t :: List.map (λ x, " " +:+ x) ts.
Proof.
  intros Ht Hts. revert t Ht. induction Hts as [|t2 ts Ht2 _ IH]; intros t Ht.
  - simpl. by apply split_no_sep.
  - change (Py.join ", " (t :: t2 :: ts))
      with (t +:+ String "," (" " +:+ Py.join ", " (t2 :: ts))).
    rewrite split_unfold by done. rewrite cut_char_app by done.
    assert (" " +:+ Py.join ", " (t2 :: ts) = Py.join ", " ((" " +:+ t2) :: ts)) as ->.
    { destruct ts; [done|]. cbn [Py.join]. by rewrite <- str_app_assoc. }
    rewrite IH; [done|].
    change (" " +:+ t2) with (String " " t2). rewrite cut_char_cons.
    change (Ascii.eqb "," " ") with false. cbv iota. by rewrite Ht2.
Qed.

Lemma strip_space_cons t : Py.strip (" " +:+ t) = Py.strip t.
Proof. reflexivity. Qed.

Lemma join_truthy sep t (ts : list string) :
  t ≠ "" → Py.truthy (Py.join sep (t :: ts)) = true.
Proof. intros Ht. destruct t; [done|]. by destruct ts. Qed.

Lemma clean_tags_spaced (ts : list string) :
  Forall clean_tag ts →
  List.map Py.strip
    (List.filter (λ tag, Py.truthy (Py.strip tag)) (List.map (λ x, " " +:+ x) ts))
  = ts.
Proof.
  induction 1 as [|x l (Hx & Hsx & _) _ IH]; [done|].
  assert (Py.truthy (Py.strip (" " +:+ x)) = true) as Htt
    by (rewrite strip_space_cons, Hsx; by apply truthy_true).
  cbn [List.map List.filter]. rewrite Htt. cbn [List.map].
  by rewrite strip_space_cons, Hsx, IH.
Qed.

(** X5: writing a list of clean tags as ["a, b, c"] and reading the
    hashtag list back gives the same tags in the same order. *)
Theorem hashtag_list_join (v : Video) (tags : list string) :
  Forall clean_tag tags →
  hashtag_list (set_hashtags v (Some (Py.join ", " tags))) = tags.
Proof.
  intros Hclean. destruct Hclean as [|t ts (Hne & Hst & Hc) Hts]; [done|].
  unfold hashtag_list. cbn [hashtags set_hashtags].
  rewrite join_truthy by done. cbn [negb].
  rewrite split_join_comma.
  - assert (Py.truthy (Py.strip t) = true) as Htt
      by (rewrite Hst; by apply truthy_true).
    cbn [List.filter]. rewrite Htt. cbn [List.map]. rewrite Hst. f_equal.
    by apply clean_tags_spaced.
  - by apply contains_false.
  - eapply Forall_impl; [exact Hts|]. intros x (_ & _ & Hx). by apply contains_false.
Qed.

(** Three tags, written and read back. *)
Lemma hashtag_list_join_witness :
  hashtag_list (set_hashtags sample_video (Some "music, live show, 4k"))
  = ["music"; "live show"; "4k"].
Proof.
  apply (hashtag_list_join sample_video ["music"; "live show"; "4k"]).
  repeat constructor; vm_compute; congruence.
Defined.

(** ** The embed URL and the id it is built from *)

Lemma cut_slash_e_tail i :
  Py.cut "/" i = None → Py.cut "/e/" (i +:+ "/") = None.
Proof.
  induction i as [|c i IH]; [done|].
  rewrite cut_char_cons. destruct (Ascii.eqb "/" c) eqn:Hc; [done|].
  destruct (Py.cut "/" i) as [[a b]|]; [done|]. intros _.
  rewrite str_app_cons.
  change (Py.cut "/e/" (String c (i +:+ "/")))
    with (match (if Ascii.eqb "/" c
                 then Py.strip_prefix "e/" (i +:+ "/") else None) with
          | Some r => Some ("", r)
          | None => match Py.cut "/e/" (i +:+ "/") with
                    | Some (a, b) => Some (String c a, b)
                    | None => None
                    end
          end).
  rewrite Hc. by rewrite IH.
Qed.

(** The extracted id never holds a [/]. *)
Lemma extract_no_slash url : Py.cut "/" (extract_streamtape_id url) = None.
Proof.
  destruct (Py.contains "/e/" url) eqn:Hin.
  - destruct (extract_embed_branch url Hin) as (t & _ & ->).
    destruct (Py.cut "/" t) as [[a b]|] eqn:Hc; [|done].
    by eapply cut_Some_before.
  - by destruct (extract_plain_branch url Hin) as (t & _ & Hnone & ->).
Qed.

Lemma extract_of_embed i :
  Py.cut "/" i = None →
  extract_streamtape_id ("https://streamtape.com/e/" +:+ i +:+ "/") = i.
Proof.
  intros Hi.
  assert (Py.cut "/e/" ("https://streamtape.com/e/" +:+ i +:+ "/")
          = Some ("https://streamtape.com", i +:+ "/")) as Hcut by reflexivity.
  assert (Py.contains "/e/" ("https://streamtape.com/e/" +:+ i +:+ "/") = true) as Hin.
  { unfold Py.contains. by rewrite Hcut. }
  destruct (extract_embed_branch _ Hin) as (t & Hlast & ->).
  unfold Py.item_last in Hlast.
  rewrite split_unfold, Hcut in Hlast by done.
  rewrite split_no_sep in Hlast by (by apply cut_slash_e_tail).
  injection Hlast as <-.
  by rewrite (cut_char_app "/" i "" Hi).
Qed.

(** X6: the embed URL leads back to the id: for a row whose
    [streamtape_id] is the extraction of some URL, as both write handlers
    store it, the extraction of the row's [embed_url] is that id again. *)
Theorem embed_url_round_trip (v : Video) (url : string) :
  streamtape_id v = extract_streamtape_id url →
  extract_streamtape_id (embed_url v) = streamtape_id v.
Proof.
  intros Hid. unfold embed_url. apply extract_of_embed.
  rewrite Hid. apply extract_no_slash.
Qed.

(** The embed URL of the sample video gives its id back. *)
Lemma embed_url_round_trip_witness :
  extract_streamtape_id (embed_url sample_video) = "ABC123".
Proof.
  exact (embed_url_round_trip sample_video "https://streamtape.com/e/ABC123/" eq_refl).
Defined.

(** ** More on the admin routes *)

(** Row 1 of the two-row sample survives the deletion of row 2. *)
Lemma other_rows_kept_witness :
  List.find (has_id 1)
    (videos (world_after (admin_handle sample_env (Delete 2) sample_world2)))
  = Some sample_video.
Proof.
  apply (other_rows_kept sample_env (Delete 2) sample_world2 1 sample_video).
  - reflexivity.
  - simpl. lia.
Defined.








(** The world a successful update without a new banner leaves. *)
Lemma update_video_success_plain env k ti de ha url banner w r :
  banner_supplied banner = None →
  outcome (update_video env k ti de ha url banner w) = Ok r →
  ∃ v, List.find (has_id k) (videos w) = Some v
       ∧ validate_form_input ti url = Ok tt
       ∧ world_after (update_video env k ti de ha url banner w)
         = mkWorld (files w)
             (flush env (Dirty (set_basic_fields v ti de ha url)) (videos w)).
Proof.
  intros Hb. rewrite update_video_run, Hb.
  destruct (List.find (has_id k) (videos w)) as [v|]; [|done].
  destruct (validate_form_input ti url) as [[]|e]; [|done].
  cbv zeta. unfold committed. destruct (commit_error env); [done|].
  intros _. by exists v.
Qed.

(** X10: submitting the same edit again changes nothing: after a
    successful update without a new banner, a second update with the same
    form leaves the world exactly as the first one left it, [updated_at]
    included, whether or not its commit succeeds. *)
Theorem update_twice env env' k ti de ha url banner w r :
  banner_supplied banner = None →
  outcome (update_video env k ti de ha url banner w) = Ok r →
  let updated := world_after (update_video env k ti de ha url banner w) in
  world_after (update_video env' k ti de ha url banner updated) = updated.
Proof.
  intros Hb Hok updated. subst updated.
  destruct (update_video_success_plain _ _ _ _ _ _ _ _ _ Hb Hok)
    as (v & Hfind & Hval & ->).
  pose proof (find_has_id _ _ _ Hfind) as Hid. subst k.
  destruct (flush_dirty_find_key env (set_basic_fields v ti de ha url)
              (videos w) v (id v) eq_refl Hfind) as [u Hu].
  rewrite update_video_run, Hb, Hval. cbn [videos]. rewrite Hu. cbv zeta.
  unfold committed. destruct (commit_error env'); [done|].
  unfold world_after. cbn [fst snd files videos].
  f_equal. cbn [flush]. rewrite bool_decide_eq_true_2; [done|].
  exact Hu.
Qed.

(** The sample video, edited twice with the same form. *)
Lemma update_twice_witness :
  let later := mkEnv "9c1d" 1800000000 None None None in
  let updated := world_after
    (update_video sample_env 1 "New title" None None
       "https://streamtape.com/e/XYZ/" None sample_world) in
  world_after (update_video later 1 "New title" None None
                 "https://streamtape.com/e/XYZ/" None updated) = updated.
Proof.
  exact (update_twice sample_env (mkEnv "9c1d" 1800000000 None None None) 1
           "New title" None None "https://streamtape.com/e/XYZ/" None sample_world
           (RedirectResponse "/admin" 303) eq_refl eq_refl).
Defined.

(** ** The banner files *)

(** X11: an update of an existing row with a new banner whose form is
    valid, whose file is accepted and written and whose commit works,
    succeeds whatever the removal of the old banner does: it answers with
    the redirect, the new file is on storage and, when the removal meets no
    error and the two paths differ, the old file is removed; when the
    removal of the old file fails, only the new file has been added. *)
Theorem update_replaces_banner env k ti de ha url banner w v f :
  List.find (has_id k) (videos w) = Some v →
  banner_supplied banner = Some f →
  banner_path v ≠ "" →
  validate_form_input ti url = Ok tt →
  upload_precheck f = Ok tt →
  write_error env = None →
  commit_error env = None →
  let new := banner_file_path env f in
  let added := <[new := content f]> (files w) in
  (∀ re, outcome (update_video (with_remove_error env re) k ti de ha url banner w)
         = Ok (RedirectResponse "/admin" 303))
  ∧ outcome (update_video env k ti de ha url banner w)
    = Ok (RedirectResponse "/admin" 303)
  ∧ files (world_after (update_video env k ti de ha url banner w))
    = match remove_error env with
      | None => if bool_decide (banner_path v ≠ new)
                then delete (banner_path v) added else added
      | Some _ => added
      end.
Proof.
  intros Hfind Hb Hne Hval Hpre Hwe Hce new added. subst new added.
  assert (∀ env', write_error env' = None → commit_error env' = None →
            outcome (update_video env' k ti de ha url banner w)
            = Ok (RedirectResponse "/admin" 303)) as Hok.
  { intros env' Hwe' Hce'. rewrite update_video_run, Hfind, Hb, Hval, Hpre.
    cbv zeta. rewrite Hwe', committed_outcome. by rewrite Hce'. }
  split; [intros re; by apply Hok|]. split; [by apply Hok|].
  rewrite update_video_run, Hfind, Hb, Hval, Hpre. cbv zeta. rewrite Hwe.
  rewrite committed_files.
  unfold old_banner_removed. case_bool_decide as Hdiff.
  - rewrite delete_file_safely_run.
    rewrite (proj2 (truthy_true _) Hne). cbn [andb].
    case_bool_decide as Hex.
    + by destruct (remove_error env).
    + assert (files (stored env f w) !! banner_path v = None) as Hnone.
      { destruct (files (stored env f w) !! banner_path v) eqn:E; [|done].
        destruct Hex. eauto. }
      unfold world_after. cbn [fst snd]. unfold stored in Hnone |- *.
      cbn [files] in Hnone |- *.
      destruct (remove_error env); [done|]. by rewrite delete_id.
  - unfold world_after. cbn [fst snd]. unfold stored. cbn [files].
    by destruct (remove_error env).
Qed.

(** The banner of the sample video, replaced, also when the old file
    cannot be removed. *)
Lemma update_replaces_banner_witness :
  let run := update_video sample_env 1 "New title" None None
               "https://streamtape.com/e/XYZ/" (Some sample_image) sample_world in
  let run' := update_video (with_remove_error sample_env (Some "Permission denied"))
                1 "New title" None None
                "https://streamtape.com/e/XYZ/" (Some sample_image) sample_world in
  outcome run' = Ok (RedirectResponse "/admin" 303)
  ∧ outcome run = Ok (RedirectResponse "/admin" 303)
  ∧ files (world_after run)
    = delete "static/banners/old.jpg"
        (<["static/banners/3f2b.png" := "new image"]> (files sample_world)).
Proof.
  destruct (update_replaces_banner sample_env 1 "New title" None None
              "https://streamtape.com/e/XYZ/" (Some sample_image) sample_world
              sample_video sample_image eq_refl eq_refl
              ltac:(vm_compute; discriminate) eq_refl eq_refl eq_refl eq_refl)
    as (H1 & H2 & H3).
  split; [exact (H1 (Some "Permission denied"))|]. split; [exact H2|exact H3].
Defined.

(** X12: [delete_file_safely] is best effort and harmless: it never
    raises, leaves the table and every other file as they were, never adds
    or changes a file, does nothing for an empty or missing path, and a
    second call after it changes nothing more. *)
Theorem delete_file_safely_best_effort env p w :
  let run := delete_file_safely env p w in
  outcome run = Ok tt
  ∧ videos (world_after run) = videos w
  ∧ (∀ q, q ≠ p → files (world_after run) !! q = files w !! q)
  ∧ files (world_after run) ⊆ files w
  ∧ (if Py.truthy p && bool_decide (is_Some (files w !! p))
     then True else run = (Ok tt, w, []))
  ∧ world_after (delete_file_safely env p (world_after run)) = world_after run.
Proof.
  intros run. subst run.
  destruct (delete_file_safely_ok env p w) as [Hok Hvid].
  split; [done|]. split; [done|].
  split; [intros q Hq; by apply delete_file_safely_keeps|].
  pose proof (delete_file_safely_run env p w) as H1.
  destruct (Py.truthy p && bool_decide (is_Some (files w !! p))) eqn:Hcond.
  - destruct (remove_error env) eqn:Hre.
    + rewrite !H1. unfold world_after. cbn [fst snd]. by rewrite H1.
    + rewrite !H1. unfold world_after. cbn [fst snd files].
      split; [apply delete_subseteq|]. split; [done|].
      rewrite delete_file_safely_run. cbn [files].
      rewrite lookup_delete_eq.
      rewrite (bool_decide_eq_false_2 (is_Some None)) by (by intros [? ?]).
      by rewrite andb_false_r.
  - rewrite !H1. unfold world_after. cbn [fst snd]. by rewrite H1.
Qed.

Lemma upload_precheck_ok file :
  upload_precheck file = Ok tt →
  ∃ name ct, filename file = Some name ∧ name ≠ ""
             ∧ content_type file = Some ct ∧ Py.startswith ct "image/" = true.
Proof.
  unfold upload_precheck.
  destruct (filename file) as [[|c name]|]; [done| |done].
  destruct (content_type file) as [[|c' ct]|]; [done| |done].
  cbn [opt_truthy Py.truthy negb orb].
  change (default "" (Some (String c' ct))) with (String c' ct).
  destruct (Py.startswith (String c' ct) "image/") eqn:Himg; [|done].
  intros _. by exists (String c name), (String c' ct).
Qed.

(** X13: the path [save_uploaded_file] returns: it is
    [static/banners/], the uuid, a dot and an extension without a dot,
    which is what follows the last dot of the uploaded name, or [jpg] for a
    name without a dot; the upload is declared as an image, the file at the
    path holds the uploaded content and nothing else in the world has
    changed. *)
Theorem save_uploaded_file_path env file w p w1 t :
  save_uploaded_file env file w = (Ok p, w1, t) →
  ∃ name ext,
    filename file = Some name ∧ name ≠ ""
    ∧ p = "static/banners/" +:+ uuid4 env +:+ "." +:+ ext
    ∧ Py.contains "." ext = false
    ∧ (if Py.contains "." name then ∃ pre, name = pre +:+ "." +:+ ext
       else ext = "jpg")
    ∧ (∃ ct, content_type file = Some ct ∧ Py.startswith ct "image/" = true)
    ∧ w1 = mkWorld (<[p := content file]> (files w)) (videos w)
    ∧ t = [EvWrite p].
Proof.
  rewrite save_uploaded_file_run.
  destruct (upload_precheck file) as [[]|e] eqn:Hpre; [|done].
  apply upload_precheck_ok in Hpre as (name & ct & Hname & Hn & Hct & Himg).
  cbv zeta. destruct (write_error env); [done|].
  intros [= <- <- <-]. exists name.
  unfold banner_file_path. rewrite Hname.
  change (default "" (Some name)) with name.
  destruct (Py.contains "." name) eqn:Hdot.
  - destruct (split_last "." name) as (ext & -> & Hnone & Hdec); [done|].
    exists ext. change (default "jpg" (Some ext)) with ext.
    split_and!; try done.
    + by apply contains_false.
    + destruct Hdec as [[Hc _]|[pre ->]]; [|by exists pre].
      apply contains_false in Hc. congruence.
    + by exists ct.
  - exists "jpg". split_and!; try done. by exists ct.
Qed.

(** A photo with two dots in its name, stored. *)
Lemma save_uploaded_file_path_witness :
  ∃ name ext,
    Some "holiday.2024.JPEG" = Some name ∧ name ≠ ""
    ∧ "static/banners/3f2b.JPEG" = "static/banners/" +:+ "3f2b" +:+ "." +:+ ext
    ∧ Py.contains "." ext = false.
Proof.
  destruct (save_uploaded_file_path sample_env
              (mkUploadFile (Some "holiday.2024.JPEG") (Some "image/jpeg") "pixels")
              (mkWorld ∅ []) "static/banners/3f2b.JPEG"
              (mkWorld {["static/banners/3f2b.JPEG" := "pixels"]} [])
              [EvWrite "static/banners/3f2b.JPEG"] eq_refl)
    as (name & ext & H1 & H2 & H3 & H4 & _).
  exists name, ext. split_and!; assumption.
Defined.

(** ** The list and statistics endpoints *)




Example get_stats_example :
  outcome (get_stats (λ _, "t") sample_world2)
  = Ok (JDict
      [("status", JStr "success");
       ("stats", JDict
         [("total_videos", JInt 2);
          ("unique_hashtags", JInt 3);
          ("recent_videos",
           JList [JDict [("id", JInt 2); ("title", JStr "Second");
                         ("created_at", JStr "t")];
                  JDict [("id", JInt 1); ("title", JStr "Intro");
                         ("created_at", JStr "t")]])])]).
Proof. vm_compute; reflexivity. Qed.

(** ** What the stored rows look like *)

Lemma strip_or_none_trimmed (x : option string) :
  match strip_or_none x with
  | Some s => Py.strip s = s
  | None => True
  end.
Proof.
  destruct x as [s|]; [|done]. simpl.
  destruct (Py.truthy s); [|done]. apply strip_idem.
Qed.

(** X16: the text a write request stores is trimmed: in the row a
    successful upload or update leaves under its key, the title, the URL,
    the description and the hashtags have no whitespace at either end. *)
Theorem stored_text_trimmed env req w r :
  outcome (handle env req w) = Ok r →
  ∃ v, List.find (has_id (target req w)) (videos (world_after (handle env req w)))
       = Some v
     ∧ Py.strip (title v) = title v
     ∧ Py.strip (streamtape_url v) = streamtape_url v
     ∧ match description v with Some s => Py.strip s = s | None => True end
     ∧ match hashtags v with Some s => Py.strip s = s | None => True end.
Proof.
  destruct req as [ti de ha url f|k ti de ha url f]; simpl.
  - intros Hok.
    destruct (upload_video_table env ti de ha url f w)
      as [[_ ->]|[(c & d & Hr & _)|(d & Hr & _)]]; [|congruence..].
    rewrite flush_added_find. eexists. split; [done|]. cbn.
    split_and!; try apply strip_idem; apply strip_or_none_trimmed.
  - intros Hok.
    destruct (update_video_table env k ti de ha url f w)
      as [(v & p & Hf & _ & -> & _)|(c & d & Hr & _)]; [|congruence].
    pose proof (find_has_id _ _ _ Hf) as Hid.
    destruct (flush_dirty_find_key env
      (set_banner_path (set_basic_fields v ti de ha url) p) (videos w) v k)
      as [u ->]; [done..|].
    eexists. split; [done|]. cbn.
    split_and!; try apply strip_idem; apply strip_or_none_trimmed.
Qed.

(** The sample video after an edit with padded fields. *)
Lemma stored_text_trimmed_witness :
  let req := Update 1 "  New title " (Some " about  ") (Some "   ")
               " https://streamtape.com/e/XYZ/ " None in
  ∃ v, List.find (has_id 1) (videos (world_after (handle sample_env req sample_world)))
       = Some v
     ∧ Py.strip (title v) = title v
     ∧ Py.strip (streamtape_url v) = streamtape_url v
     ∧ match description v with Some s => Py.strip s = s | None => True end
     ∧ match hashtags v with Some s => Py.strip s = s | None => True end.
Proof.
  exact (stored_text_trimmed sample_env
           (Update 1 "  New title " (Some " about  ") (Some "   ")
              " https://streamtape.com/e/XYZ/ " None)
           sample_world (RedirectResponse "/admin" 303) eq_refl).
Defined.

Lemma row_update_cases env v r :
  row_update env v r = r
  ∨ row_update env v r
    = mkVideo (id v) (title v) (description v) (hashtags v) (streamtape_url v)
        (streamtape_id v) (banner_path v) (created_at v) (utcnow env).
Proof. unfold row_update. destruct (has_id (id v) r); auto. Qed.

(** X17: [updated_at] never falls behind [created_at]: when it holds for
    every row of the table, the clock of the request is not earlier than
    any row's creation and does not go back between its two readings for
    an insert, it holds for every row after the request. *)
Theorem timestamps_ordered env req w :
  (∀ v, v ∈ videos w → created_at v ≤ updated_at v) →
  (∀ v, v ∈ videos w → created_at v ≤ utcnow env) →
  utcnow env ≤ utcnow_next env →
  ∀ v, v ∈ videos (world_after (admin_handle env req w)) →
       created_at v ≤ updated_at v.
Proof.
  intros Hinv Hclock Hmono.
  destruct req as [[ti de ha url f|k ti de ha url f]|k]; simpl.
  - assert (∀ v, v ∈ flush env
              (Added (Py.strip ti) (strip_or_none de) (strip_or_none ha)
                 (Py.strip url) (extract_streamtape_id url)
                 (banner_file_path env f)) (videos w) →
              created_at v ≤ updated_at v) as Hnew.
    { simpl. intros v [Hv|Hv%list_elem_of_singleton]%elem_of_app; [by apply Hinv|].
      subst v. simpl. lia. }
    destruct (upload_video_table env ti de ha url f w)
      as [[_ ->]|[(c & d & _ & _ & ->)|(d & _ & _ & _ & ->)]]; done.
  - destruct (update_video_table env k ti de ha url f w)
      as [(old & p & Hf & _ & -> & _)|(c & d & _ & _ & _ & ->)]; [|done].
    simpl. case_bool_decide; [done|].
    intros v Hv. apply list_elem_of_In, in_map_iff in Hv as (x & <- & Hx).
    apply list_elem_of_In in Hx.
    destruct (row_update_cases env
      (set_banner_path (set_basic_fields old ti de ha url) p) x) as [-> | ->].
    + by apply Hinv.
    + simpl. apply Hclock. apply find_some in Hf as [Hin _].
      by apply list_elem_of_In.
  - destruct (delete_video_table env k w)
      as [(old & _ & _ & ->)|(c & d & _ & _ & _ & ->)]; [|done].
    simpl. intros v Hv. apply list_elem_of_In, filter_In in Hv as [Hv _].
    by apply Hinv, list_elem_of_In.
Qed.

(** The timestamps of the sample table after an upload whose two
    readings of the clock are five microseconds apart. *)
Lemma timestamps_ordered_witness :
  Forall (λ v, created_at v ≤ updated_at v)
    (videos (world_after
       (admin_handle
          (mkEnvOf "3f2b" 1700000000000000 1700000000000005
             None None None None None)
          (Write (Upload "Third" None None "https://streamtape.com/e/GHI/"
                    sample_image))
          sample_world2))).
Proof.
  apply Forall_forall.
  apply (timestamps_ordered
           (mkEnvOf "3f2b" 1700000000000000 1700000000000005
              None None None None None)
           (Write (Upload "Third" None None "https://streamtape.com/e/GHI/"
                     sample_image))
           sample_world2).
  - intros v Hv. apply list_elem_of_In in Hv.
    destruct Hv as [<-|[<-|[]]]; vm_compute; congruence.
  - intros v Hv. apply list_elem_of_In in Hv.
    destruct Hv as [<-|[<-|[]]]; vm_compute; congruence.
  - vm_compute; congruence.
Defined.

(** ** Requests that fail *)

(** X18: a request that is refused with status 400 or 404 has had no
    effect at all: the world is unchanged and no storage step was taken.
    Only a 500 answer can follow a storage step. *)
Theorem client_errors_change_nothing env req w c d :
  outcome (admin_handle env req w) = Raise (HTTPException c d) →
  c ≠ 500 →
  admin_handle env req w = (Raise (HTTPException c d), w, []).
Proof.
  destruct req as [[ti de ha url f|k ti de ha url f]|k]; simpl.
  - rewrite upload_video_run.
    destruct (validate_form_input ti url) as [[]|e]; [|by intros [= ->]].
    destruct (upload_precheck f) as [[]|e]; [|by intros [= ->]].
    cbv zeta. destruct (write_error env); [by intros [= <- <-]|].
    destruct (commit_error env); [by intros [= <- <-]|].
    destruct (refresh_error env); [by intros [= <- <-]|done].
  - rewrite update_video_run.
    destruct (List.find (has_id k) (videos w)) as [v|].
    2:{ unfold no_row. destruct (in_int64 k); by intros [= <- <-]. }
    destruct (validate_form_input ti url) as [[]|e]; [|by intros [= ->]].
    cbv zeta. destruct (banner_supplied f) as [file|].
    + destruct (upload_precheck file) as [[]|e]; [|by intros [= ->]].
      cbv zeta. destruct (write_error env); [by intros [= <- <-]|].
      rewrite committed_outcome.
      destruct (commit_error env); [by intros [= <- <-]|done].
    + rewrite committed_outcome.
      destruct (commit_error env); [by intros [= <- <-]|done].
  - rewrite delete_video_run.
    destruct (List.find (has_id k) (videos w)) as [v|].
    2:{ unfold no_row. destruct (in_int64 k); by intros [= <- <-]. }
    cbv zeta. rewrite committed_outcome.
    destruct (commit_error env); [by intros [= <- <-]|done].
Qed.

(** An upload of a text file into the sample world. *)
Lemma client_errors_change_nothing_witness :
  admin_handle sample_env
    (Write (Upload "Intro" None None "https://streamtape.com/e/ABC123/"
              (mkUploadFile (Some "notes.txt") (Some "text/plain") "notes")))
    sample_world
  = (Raise (HTTPException 400 "Only image files are allowed"), sample_world, []).
Proof.
  apply (client_errors_change_nothing sample_env
           (Write (Upload "Intro" None None "https://streamtape.com/e/ABC123/"
                     (mkUploadFile (Some "notes.txt") (Some "text/plain") "notes")))
           sample_world 400 "Only image files are allowed").
  - reflexivity.
  - lia.
Defined.

(** X19: what a failed upload leaves behind when its cleanup works, that
    is, when the removal of a file meets no error and the banner path was
    free before.  Every other file is as it was.  The file store is as it
    was unless the write failed once the file was open, which leaves what
    was written under the new path.  The table is as it was unless the
    re-read of the committed row failed, which leaves the row.  So the
    world is the one before the upload when neither happened. *)
Theorem failed_upload_restores env ti de ha url banner w e :
  outcome (upload_video env ti de ha url banner w) = Raise e →
  remove_error env = None →
  files w !! banner_file_path env banner = None →
  let after := world_after (upload_video env ti de ha url banner w) in
  (∀ q, q ≠ banner_file_path env banner → files after !! q = files w !! q)
  ∧ (write_partial env = None → files after = files w)
  ∧ (refresh_error env = None → videos after = videos w)
  ∧ (write_partial env = None → refresh_error env = None → after = w).
Proof.
  rewrite upload_video_run. intros Hr Hre Hfree after. subst after.
  destruct (validate_form_input ti url) as [[]|e']; [|done].
  destruct (upload_precheck banner) as [[]|e']; [|done].
  cbv zeta in Hr |- *. destruct (write_error env).
  { unfold world_after. cbn [fst snd]. split_and!.
    - intros q Hq. by apply write_failed_files.
    - unfold write_failed. by intros ->.
    - intros _. apply write_failed_videos.
    - unfold write_failed. by intros -> _. }
  assert (delete (banner_file_path env banner) (files (stored env banner w))
          = files w) as Hback.
  { unfold stored. cbn [files]. by rewrite delete_insert_id. }
  destruct (commit_error env).
  - rewrite Hre. unfold world_after. cbn [fst snd]. rewrite Hback.
    split_and!; try done. intros _ _. by destruct w.
  - destruct (refresh_error env); [|done].
    rewrite Hre. unfold world_after. cbn [fst snd files videos]. rewrite Hback.
    split_and!; done.
Qed.

(** An upload into the sample world whose commit fails: the world is
    again the sample world. *)
Lemma failed_upload_restores_witness :
  world_after
    (upload_video (mkEnv "3f2b" 1700000000 None None (Some "database is locked"))
       "Second" None None "https://streamtape.com/e/DEF/" sample_image sample_world)
  = sample_world.
Proof.
  exact (proj2 (proj2 (proj2
           (failed_upload_restores
              (mkEnv "3f2b" 1700000000 None None (Some "database is locked"))
              "Second" None None "https://streamtape.com/e/DEF/" sample_image
              sample_world
              (HTTPException 500 "Failed to upload video: database is locked")
              eq_refl eq_refl eq_refl))) eq_refl eq_refl).
Defined.

(** ** The form title, the id and a deleted row *)

Lemma validate_form_input_strip ti url :
  validate_form_input (Py.strip ti) url = validate_form_input ti url.
Proof. rewrite !validate_form_input_run. by rewrite strip_idem. Qed.

(** X20: whitespace around the title does not matter: a write request
    behaves exactly as the same request with the trimmed title, in its
    answer, in the world it leaves and in its storage steps. *)
Theorem title_padding_ignored env req w :
  handle env (with_title req (Py.strip (form_title req))) w = handle env req w.
Proof.
  destruct req as [ti de ha url f|k ti de ha url f]; simpl.
  - rewrite !upload_video_run, validate_form_input_strip. by rewrite strip_idem.
  - rewrite !update_video_run, validate_form_input_strip.
    unfold set_basic_fields. by rewrite strip_idem.
Qed.

Lemma no_slash_no_embed i : Py.cut "/" i = None → Py.contains "/e/" i = false.
Proof.
  intros Hi. apply contains_false.
  destruct (Py.cut "/e/" i) as [[a b]|] eqn:Hc; [|done].
  apply cut_Some in Hc. subst i.
  destruct (cut_app_intro "/" a ("e/" +:+ b)) as [x Hx].
  change ("/e/" +:+ b) with ("/" +:+ "e/" +:+ b) in Hi. congruence.
Qed.

(** X21: an extracted id is a fixed point of the extraction: applying
    [extract_streamtape_id] to its own result returns that result. *)
Theorem extract_idempotent (url : string) :
  extract_streamtape_id (extract_streamtape_id url) = extract_streamtape_id url.
Proof.
  pose proof (extract_no_slash url) as Hno.
  destruct (extract_plain_branch _ (no_slash_no_embed _ Hno)) as (t & Hlast & _ & ->).
  unfold Py.item_last in Hlast. rewrite split_no_sep in Hlast by done.
  by injection Hlast as <-.
Qed.


